(** * setup_environment.py: the environment bootstrap script

    A shallow embedding of [src/setup_environment.py] and the properties of
    its procedure contract.

    The script is sequential orchestration of external commands with console
    output, one prompt and two temporary files.  It is embedded in a small
    monad that threads the mutable part of the process (working directory,
    standard input), collects the observable events in order, and carries
    Python exceptions: [sys.exit] raises [SystemExit], exactly as in Python,
    and the exit status of the process is read off the top-level result.

    The two scripts that the program synthesizes (an R script and a Python
    validation script) are source text of this repository too; each is
    embedded in its own module, the Python one in the same monad. *)

From Stdlib Require Import ZArith String Ascii List Bool Lia.
From stdpp Require Import base strings gmap.
Import ListNotations.

Local Open Scope string_scope.
Local Open Scope list_scope.

(** ** Strings as Python has them *)

(** The line feed and the double quote, which the literals below cannot hold
    directly. *)
Definition nl : string := String (ascii_of_nat 10) EmptyString.
Definition dq : string := String (ascii_of_nat 34) EmptyString.

(** [sep.join(parts)]. *)
Definition join (sep : string) (parts : list string) : string :=
  String.concat sep parts.

(** [s * n] on a string. *)
Fixpoint str_mul (s : string) (n : nat) : string :=
  match n with
  | O => EmptyString
  | S n' => s +:+ str_mul s n'
  end.

(** [str.lower()].  Strings are byte strings here (UTF-8); the letters A-Z
    are mapped to a-z and every other byte is kept.  No character outside
    ASCII lowers to the letter y, so the comparison [response.lower() != 'y']
    of the source is decided the same way. *)
Definition lower_ascii (c : ascii) : ascii :=
  let n := nat_of_ascii c in
  if (65 <=? n)%nat && (n <=? 90)%nat then ascii_of_nat (n + 32) else c.

Fixpoint lower (s : string) : string :=
  match s with
  | EmptyString => EmptyString
  | String c s' => String (lower_ascii c) (lower s')
  end.

(** Truthiness of a string: [if s:]. *)
Definition truthy (s : string) : bool :=
  match s with
  | EmptyString => false
  | String _ _ => true
  end.

(** Comparison of tuples of integers, [a < b], lexicographic as in Python. *)
Fixpoint tuple_lt (a b : list Z) : bool :=
  match a, b with
  | _, [] => false
  | [], _ :: _ => true
  | x :: a', y :: b' =>
      if (x <? y)%Z then true
      else if (y <? x)%Z then false
      else tuple_lt a' b'
  end.

(** ** The process and its surroundings *)

(** Exceptions.  [CalledProcessError] is what
    [subprocess.run(..., check=True)] raises on a non-zero exit status;
    [FileNotFoundError] is what it raises when the executable cannot be
    found; [EOFError] is raised by [input] at end of input; [SystemExit] is
    raised by [sys.exit].  The generated validation script meets two more:
    [ImportError] (with its subclass [ModuleNotFoundError]) and, for any
    other failure of an imported module or of the bridge, [RuntimeError]. *)
Inductive PyExn : Type :=
| CalledProcessError (returncode : Z) (cmd : list string) (stderr : string)
| FileNotFoundError (filename : string)
| EOFError
| SystemExit (code : Z)
| ImportError (msg : string)
| RuntimeError (msg : string).

(** What the operator and the operating system can observe, in order. *)
Inductive Event : Type :=
| EvPrint (line : string)
| EvInput (prompt : string)
| EvRun (command : list string)
| EvWrite (path content : string)
| EvRemove (path : string)
| EvImport (name : string)
| EvEval (code : string).

(** What running an external command does: it exits with a status, its two
    captured streams and the files it leaves behind, or it cannot be started
    because the executable is not on the search path. *)
Inductive Outcome : Type :=
| Exited (returncode : Z) (stdout stderr : string) (files : gmap string string)
| NotFound (filename : string).

(** The attributes of [sys] that the script reads.  An attribute that may be
    missing ([hasattr]) is an option.  [version_info] holds the leading
    integers (major, minor, micro) of the tuple. *)
Record Sys : Type := {
  executable : string;
  version_info : list Z;
  version : string;
  real_prefix : option string;
  base_prefix : option string;
  prefix : string
}.

(** Everything outside the script: the interpreter, the behaviour of the
    external commands on the current files, and how Python renders an
    exception in an f-string. *)
Record Env : Type := {
  sys : Sys;
  subprocess : list string -> gmap string string -> Outcome;
  str_exn : PyExn -> string
}.

(** The mutable part: files of the working directory (name to content) and
    the lines still to be read from standard input. *)
Record State : Type := {
  fs : gmap string string;
  stdin : list string
}.

Inductive Res (A : Type) : Type :=
| Ret (a : A)
| Raise (e : PyExn).
Arguments Ret {A} a.
Arguments Raise {A} e.

Definition M (A : Type) : Type := State -> Res A * State * list Event.

Definition ret {A} (a : A) : M A := fun st => (Ret a, st, []).

Definition bind {A B} (m : M A) (f : A -> M B) : M B := fun st =>
  match m st with
  | (Ret a, st', t) =>
      match f a st' with
      | (r, st'', t') => (r, st'', t ++ t')
      end
  | (Raise e, st', t) => (Raise e, st', t)
  end.

#[global] Instance M_ret : MRet M := @ret.
#[global] Instance M_bind : MBind M := fun A B f m => bind m f.

(** [try: body except ...: handler]: the handler chooses the exceptions it
    catches; any other one propagates. *)
Definition try_except {A} (body : M A) (handler : PyExn -> option (M A)) : M A :=
  fun st =>
    match body st with
    | (Ret a, st', t) => (Ret a, st', t)
    | (Raise e, st', t) =>
        match handler e with
        | Some h =>
            match h st' with
            | (r, st'', t') => (r, st'', t ++ t')
            end
        | None => (Raise e, st', t)
        end
    end.

Definition when (b : bool) (m : M unit) : M unit :=
  if b then m else ret tt.

Definition print (line : string) : M unit := fun st =>
  (Ret tt, st, [EvPrint line]).

Definition input (prompt : string) : M string := fun st =>
  match stdin st with
  | [] => (Raise EOFError, st, [EvInput prompt])
  | line :: rest =>
      (Ret line, {| fs := fs st; stdin := rest |}, [EvInput prompt])
  end.

Definition sys_exit {A} (code : Z) : M A := fun st =>
  (Raise (SystemExit code), st, []).

(** [with open(path, "w") as f: f.write(content)]. *)
Definition open_write (path content : string) : M unit := fun st =>
  (Ret tt, {| fs := <[path := content]> (fs st); stdin := stdin st |},
   [EvWrite path content]).

Definition os_path_exists (path : string) : M bool := fun st =>
  (Ret (bool_decide (is_Some (fs st !! path))), st, []).

Definition os_remove (path : string) : M unit := fun st =>
  match fs st !! path with
  | Some _ =>
      (Ret tt, {| fs := delete path (fs st); stdin := stdin st |},
       [EvRemove path])
  | None => (Raise (FileNotFoundError path), st, [])
  end.

(** The exit status of the process, from what [main] ends with: a normal
    return is 0, [sys.exit(c)] is [c], and an exception that nothing caught
    is reported by the interpreter with status 1. *)
Definition exit_code {A} (r : Res A) : Z :=
  match r with
  | Ret _ => 0
  | Raise (SystemExit code) => code
  | Raise _ => 1
  end.

(** ** The generated script texts *)

Definition quoted (s : string) : string := dq +:+ s +:+ dq.

(** A text from its lines, each ended by a line feed. *)
Definition unlines (ls : list string) : string :=
  String.concat "" (map (fun l => l +:+ nl) ls).

(** The template of [r_script] after [.format]: the doubled braces of the
    source are single braces, the escaped [\\n] is a backslash and the letter
    n, and the field [{packages}] is the argument. *)
Definition r_script_template (packages : string) : string :=
  unlines [
    "";
    "# Install required R packages";
    "packages <- c(" +:+ packages +:+ ")";
    "";
    "# Check if packages are installed";
    "missing_packages <- packages[!(packages %in% installed.packages()[,"
      +:+ quoted "Package" +:+ "])]";
    "";
    "if(length(missing_packages) > 0) {";
    "    cat(" +:+ quoted "Installing missing packages:"
      +:+ ", paste(missing_packages, collapse=" +:+ quoted ", " +:+ "), "
      +:+ quoted "\n" +:+ ")";
    "    install.packages(missing_packages, repos="
      +:+ quoted "https://cran.r-project.org/" +:+ ")";
    "} else {";
    "    cat(" +:+ quoted "All R packages are already installed\n" +:+ ")";
    "}";
    "";
    "cat(" +:+ quoted "Loading packages to verify installation...\n" +:+ ")";
    "for(pkg in packages) {";
    "    library(pkg, character.only=TRUE)";
    "    cat(" +:+ quoted "✓" +:+ ", pkg, "
      +:+ quoted "loaded successfully\n" +:+ ")";
    "}"
  ].

Definition r_packages : list string :=
  ["lme4"; "lmerTest"; "emmeans"; "MASS"].

Definition r_script : string :=
  r_script_template (join ", " (map quoted r_packages)).

Definition test_script : string :=
  unlines [
    "";
    "import sys";
    "";
    "# Test Python packages";
    "python_packages = ['pandas', 'polars', 'sklearn', 'statsmodels', ";
    "                   'seaborn', 'matplotlib', 'openpyxl', 'pyarrow', 'jupyter']";
    "";
    "for pkg in python_packages:";
    "    try:";
    "        __import__(pkg)";
    "        print(f" +:+ quoted "✓ {pkg}" +:+ ")";
    "    except ImportError as e:";
    "        print(f" +:+ quoted "✗ {pkg}: {e}" +:+ ")";
    "        sys.exit(1)";
    "";
    "# Test rpy2 and R packages";
    "try:";
    "    import rpy2.robjects as ro";
    "    from rpy2.robjects import pandas2ri";
    "    from rpy2.robjects.conversion import localconverter";
    "    ";
    "    # Use the new conversion context approach";
    "    with localconverter(ro.default_converter + pandas2ri.converter):";
    "        # Test R packages";
    "        r_packages = ['lme4', 'lmerTest', 'emmeans', 'MASS']";
    "        for pkg in r_packages:";
    "            try:";
    "                ro.r(f'library({pkg})')";
    "                print(f" +:+ quoted "✓ R package: {pkg}" +:+ ")";
    "            except Exception as e:";
    "                print(f" +:+ quoted "✗ R package {pkg}: {e}" +:+ ")";
    "                sys.exit(1)";
    "                ";
    "        print(" +:+ quoted "✓ rpy2 and R packages working correctly" +:+ ")";
    "    ";
    "except ImportError as e:";
    "    print(f" +:+ quoted "✗ rpy2: {e}" +:+ ")";
    "    sys.exit(1)";
    "";
    "print(" +:+ quoted "\n🎉 All packages installed and verified successfully!"
      +:+ ")"
  ].

(** ** The program *)

Section Program.

Context (env : Env).

(** [subprocess.run(command, check=True, capture_output=True, text=True)],
    returning [result.stdout].  The event records the invocation. *)
Definition subprocess_run (command : list string) : M string := fun st =>
  match subprocess env command (fs st) with
  | Exited returncode stdout stderr files =>
      let st' := {| fs := files; stdin := stdin st |} in
      if (returncode =? 0)%Z then (Ret stdout, st', [EvRun command])
      else (Raise (CalledProcessError returncode command stderr), st',
            [EvRun command])
  | NotFound filename => (Raise (FileNotFoundError filename), st, [EvRun command])
  end.

Definition run_command (command : list string) (description : string) : M bool :=
  print (nl +:+ description +:+ "...");;
  print ("Running: " +:+ join " " command);;
  try_except
    (stdout ← subprocess_run command;
     print "✓ Success";;
     when (truthy stdout) (print stdout);;
     mret true)
    (fun e =>
       match e with
       | CalledProcessError _ _ stderr =>
           Some (print ("✗ Error: " +:+ str_exn env e);;
                 when (truthy stderr) (print ("Error output: " +:+ stderr));;
                 mret false)
       | _ => None
       end).

Definition pip_upgrade_command : list string :=
  [executable (sys env); "-m"; "pip"; "install"; "--upgrade"; "pip"].

Definition pip_requirements_command : list string :=
  [executable (sys env); "-m"; "pip"; "install"; "-r"; "requirements.txt"].

Definition install_python_packages : M bool :=
  print (nl +:+ "=== Installing Python Packages ===");;
  run_command pip_upgrade_command "Upgrading pip";;
  run_command pip_requirements_command "Installing Python packages";;
  mret true.

Definition rscript_command : list string := ["Rscript"; "install_r_packages.R"].

Definition install_r_packages : M bool :=
  print (nl +:+ "=== Installing R Packages ===");;
  open_write "install_r_packages.R" r_script;;
  success ← run_command rscript_command "Installing R packages";
  (present ← os_path_exists "install_r_packages.R";
   when present (os_remove "install_r_packages.R"));;
  mret success.

Definition r_version_command : list string := ["R"; "--version"].

Definition check_r_installation : M bool :=
  print (nl +:+ "=== Checking R Installation ===");;
  ok ← run_command r_version_command "Checking R version";
  if negb ok then
    print (nl +:+ "⚠️  R is not installed or not in PATH");;
    print "Please install R first:";;
    print "  - Ubuntu/Debian: sudo apt-get install r-base";;
    print "  - macOS: brew install r";;
    print "  - Windows: Download from https://cran.r-project.org/";;
    mret false
  else mret true.

Definition verify_command : list string :=
  [executable (sys env); "verify_installation.py"].

Definition verify_installation : M bool :=
  print (nl +:+ "=== Verifying Installation ===");;
  open_write "verify_installation.py" test_script;;
  success ← run_command verify_command "Verifying installation";
  (present ← os_path_exists "verify_installation.py";
   when present (os_remove "verify_installation.py"));;
  mret success.

Definition check_virtual_env : bool :=
  let s := sys env in
  bool_decide (is_Some (real_prefix s))
  || match base_prefix s with
     | Some b => negb (String.eqb b (prefix s))
     | None => false
     end.

Definition main : M unit :=
  print "🚀 Setting up Longitudinal Analysis Environment";;
  print (str_mul "=" 50);;
  (if negb check_virtual_env then
     print "⚠️  Warning: Not running in a virtual environment";;
     print "It's highly recommended to use a virtual environment:";;
     print "  python -m venv venv";;
     print "  source venv/bin/activate  # On Windows: venv\Scripts\activate";;
     print "";;
     response ← input "Continue anyway? (y/N): ";
     if negb (String.eqb (lower response) "y") then
       print "Setup cancelled. Please create a virtual environment first.";;
       sys_exit 0
     else mret tt
   else mret tt);;
  when (tuple_lt (version_info (sys env)) [3; 10]%Z)
    (print "⚠️  Warning: Python 3.10+ is recommended";;
     print ("Current version: " +:+ version (sys env)));;
  ok ← install_python_packages;
  (if negb ok then
     print "❌ Failed to install Python packages";;
     print (nl +:+ "If you got an 'externally-managed-environment' error:");;
     print "1. Create a virtual environment: python -m venv venv";;
     print "2. Activate it: source venv/bin/activate";;
     print "3. Run this script again from within the virtual environment";;
     sys_exit 1
   else mret tt);;
  ok ← check_r_installation;
  (if negb ok then
     print "❌ R installation required";;
     sys_exit 1
   else mret tt);;
  ok ← install_r_packages;
  (if negb ok then
     print "❌ Failed to install R packages";;
     sys_exit 1
   else mret tt);;
  ok ← verify_installation;
  (if negb ok then
     print "❌ Installation verification failed";;
     sys_exit 1
   else mret tt);;
  print (nl +:+ "✅ Environment setup complete!");;
  print (nl +:+ "Next steps:");;
  print "1. Activate your virtual environment if using one";;
  print "2. Run the analysis scripts in order from the scripts/ directory";;
  print "3. Start with: python scripts/01_load_and_validate.py".

(** *** The named states of [main]

    The orchestrator of the specification walks through the states
    env-guard, version-guard, install-primary, check-secondary-runtime,
    install-secondary and verify.  [main] is one function in the source; the
    definitions below name its parts, and [main_unfold] shows that together
    they are [main], verbatim. *)

Inductive Step : Type :=
| EnvGuard
| VersionGuard
| InstallPrimary
| CheckSecondaryRuntime
| InstallSecondary
| Verify.

(** A fatal-on-failure step followed by the rest of the program:
    [if not step(): ...; sys.exit(1)] and then [rest]. *)
Definition gated (step : M bool) (on_failure rest : M unit) : M unit :=
  ok ← step;
  (if negb ok then on_failure else mret tt);;
  rest.

Definition env_guard : M unit :=
  if negb check_virtual_env then
    print "⚠️  Warning: Not running in a virtual environment";;
    print "It's highly recommended to use a virtual environment:";;
    print "  python -m venv venv";;
    print "  source venv/bin/activate  # On Windows: venv\Scripts\activate";;
    print "";;
    response ← input "Continue anyway? (y/N): ";
    if negb (String.eqb (lower response) "y") then
      print "Setup cancelled. Please create a virtual environment first.";;
      sys_exit 0
    else mret tt
  else mret tt.

Definition version_guard : M unit :=
  when (tuple_lt (version_info (sys env)) [3; 10]%Z)
    (print "⚠️  Warning: Python 3.10+ is recommended";;
     print ("Current version: " +:+ version (sys env))).

(** The body of the [if not step():] of each fatal-on-failure step. *)
Definition abort (s : Step) : M unit :=
  match s with
  | InstallPrimary =>
      print "❌ Failed to install Python packages";;
      print (nl +:+ "If you got an 'externally-managed-environment' error:");;
      print "1. Create a virtual environment: python -m venv venv";;
      print "2. Activate it: source venv/bin/activate";;
      print "3. Run this script again from within the virtual environment";;
      sys_exit 1
  | CheckSecondaryRuntime => print "❌ R installation required";; sys_exit 1
  | InstallSecondary => print "❌ Failed to install R packages";; sys_exit 1
  | Verify => print "❌ Installation verification failed";; sys_exit 1
  | EnvGuard | VersionGuard => mret tt
  end.

(** The state after [s] in the orchestrator's order. *)
Definition next (s : Step) : option Step :=
  match s with
  | EnvGuard => Some VersionGuard
  | VersionGuard => Some InstallPrimary
  | InstallPrimary => Some CheckSecondaryRuntime
  | CheckSecondaryRuntime => Some InstallSecondary
  | InstallSecondary => Some Verify
  | Verify => None
  end.

(** The states that call a step function and gate on its result. *)
Definition is_call (s : Step) : bool :=
  match s with
  | EnvGuard | VersionGuard => false
  | _ => true
  end.

(** The function that a fatal-on-failure step calls. *)
Definition step_call (s : Step) : M bool :=
  match s with
  | InstallPrimary => install_python_packages
  | CheckSecondaryRuntime => check_r_installation
  | InstallSecondary => install_r_packages
  | Verify => verify_installation
  | EnvGuard | VersionGuard => mret true
  end.

Definition epilogue : M unit :=
  print (nl +:+ "✅ Environment setup complete!");;
  print (nl +:+ "Next steps:");;
  print "1. Activate your virtual environment if using one";;
  print "2. Run the analysis scripts in order from the scripts/ directory";;
  print "3. Start with: python scripts/01_load_and_validate.py".

(** [main_from s]: the program from the entry of state [s] to its end. *)
Definition main_from (s : Step) : M unit :=
  let from_verify := gated (step_call Verify) (abort Verify) epilogue in
  let from_install_secondary :=
    gated (step_call InstallSecondary) (abort InstallSecondary) from_verify in
  let from_check :=
    gated (step_call CheckSecondaryRuntime) (abort CheckSecondaryRuntime)
      from_install_secondary in
  let from_install_primary :=
    gated (step_call InstallPrimary) (abort InstallPrimary) from_check in
  let from_version_guard := version_guard;; from_install_primary in
  match s with
  | EnvGuard => env_guard;; from_version_guard
  | VersionGuard => from_version_guard
  | InstallPrimary => from_install_primary
  | CheckSecondaryRuntime => from_check
  | InstallSecondary => from_install_secondary
  | Verify => from_verify
  end.

Definition preamble : M unit :=
  print "🚀 Setting up Longitudinal Analysis Environment";;
  print (str_mul "=" 50).

(** [run_to s]: the program from its start to the entry of state [s]. *)
Definition steps_before (s : Step) : list Step :=
  match s with
  | EnvGuard => []
  | VersionGuard => [EnvGuard]
  | InstallPrimary => [EnvGuard; VersionGuard]
  | CheckSecondaryRuntime => [EnvGuard; VersionGuard; InstallPrimary]
  | InstallSecondary =>
      [EnvGuard; VersionGuard; InstallPrimary; CheckSecondaryRuntime]
  | Verify =>
      [EnvGuard; VersionGuard; InstallPrimary; CheckSecondaryRuntime;
       InstallSecondary]
  end.

(** One state of the orchestrator on its own: a guard, or a call with its
    gate. *)
Definition run_step (s : Step) : M unit :=
  match s with
  | EnvGuard => env_guard
  | VersionGuard => version_guard
  | _ => gated (step_call s) (abort s) (mret tt)
  end.

Definition run_to (s : Step) : M unit :=
  fold_left (fun m s' => m;; run_step s') (steps_before s) preamble.

(** The commands of each state, in the order in which it invokes them. *)
Definition step_commands (s : Step) : list (list string) :=
  match s with
  | EnvGuard | VersionGuard => []
  | InstallPrimary => [pip_upgrade_command; pip_requirements_command]
  | CheckSecondaryRuntime => [r_version_command]
  | InstallSecondary => [rscript_command]
  | Verify => [verify_command]
  end.

(** *** What the command runner shows

    The console lines of [run_command] around the invocation, from what the
    command did. *)
Definition run_command_report (o : Outcome) (command : list string) : list Event :=
  match o with
  | Exited returncode stdout stderr _ =>
      if (returncode =? 0)%Z then
        EvPrint "✓ Success" :: (if truthy stdout then [EvPrint stdout] else [])
      else
        EvPrint ("✗ Error: "
                 +:+ str_exn env (CalledProcessError returncode command stderr))
        :: (if truthy stderr then [EvPrint ("Error output: " +:+ stderr)] else [])
  | NotFound _ => []
  end.

Definition run_command_events (o : Outcome) (command : list string)
    (description : string) : list Event :=
  [EvPrint (nl +:+ description +:+ "...");
   EvPrint ("Running: " +:+ join " " command);
   EvRun command] ++ run_command_report o command.

(** The console lines of the guards and of the failure banners, as lists. *)
Definition preamble_lines : list string :=
  ["🚀 Setting up Longitudinal Analysis Environment"; str_mul "=" 50].

Definition venv_warning : list string :=
  ["⚠️  Warning: Not running in a virtual environment";
   "It's highly recommended to use a virtual environment:";
   "  python -m venv venv";
   "  source venv/bin/activate  # On Windows: venv\Scripts\activate";
   ""].

Definition epilogue_lines : list string :=
  [nl +:+ "✅ Environment setup complete!";
   nl +:+ "Next steps:";
   "1. Activate your virtual environment if using one";
   "2. Run the analysis scripts in order from the scripts/ directory";
   "3. Start with: python scripts/01_load_and_validate.py"].

Definition venv_prompt : string := "Continue anyway? (y/N): ".

Definition cancelled_line : string :=
  "Setup cancelled. Please create a virtual environment first.".

Definition version_warning : list string :=
  if tuple_lt (version_info (sys env)) [3; 10]%Z then
    ["⚠️  Warning: Python 3.10+ is recommended";
     "Current version: " +:+ version (sys env)]
  else [].

Definition banner_lines (s : Step) : list string :=
  match s with
  | InstallPrimary =>
      ["❌ Failed to install Python packages";
       nl +:+ "If you got an 'externally-managed-environment' error:";
       "1. Create a virtual environment: python -m venv venv";
       "2. Activate it: source venv/bin/activate";
       "3. Run this script again from within the virtual environment"]
  | CheckSecondaryRuntime => ["❌ R installation required"]
  | InstallSecondary => ["❌ Failed to install R packages"]
  | Verify => ["❌ Installation verification failed"]
  | EnvGuard | VersionGuard => []
  end.

(** The operator's answer that lets the program go on:
    [response.lower() == 'y']. *)
Definition affirmative (response : string) : bool :=
  String.eqb (lower response) "y".

(** The guidance of [check_r_installation] for the three platforms. *)
Definition r_install_guidance : list string :=
  ["  - Ubuntu/Debian: sudo apt-get install r-base";
   "  - macOS: brew install r";
   "  - Windows: Download from https://cran.r-project.org/"].

End Program.

Arguments r_script : simpl never.
Arguments test_script : simpl never.
Arguments str_mul : simpl never.

(** The three components of a run. *)
Definition result {A} (x : Res A * State * list Event) : Res A := x.1.1.
Definition final {A} (x : Res A * State * list Event) : State := x.1.2.
Definition trace {A} (x : Res A * State * list Event) : list Event := x.2.

(** The commands handed to [subprocess.run] during a run, in order. *)
Fixpoint commands_run (t : list Event) : list (list string) :=
  match t with
  | [] => []
  | EvRun c :: t' => c :: commands_run t'
  | _ :: t' => commands_run t'
  end.

(** The files written during a run, in order. *)
Fixpoint files_written (t : list Event) : list string :=
  match t with
  | [] => []
  | EvWrite p _ :: t' => p :: files_written t'
  | _ :: t' => files_written t'
  end.

(** The prompts at which standard input was read, in order. *)
Fixpoint prompts (t : list Event) : list string :=
  match t with
  | [] => []
  | EvInput p :: t' => p :: prompts t'
  | _ :: t' => prompts t'
  end.

(** The lines printed during a run, in order. *)
Fixpoint printed (t : list Event) : list string :=
  match t with
  | [] => []
  | EvPrint l :: t' => l :: printed t'
  | _ :: t' => printed t'
  end.


(** ** Failing states and short circuits *)

(** The commands of the states up to and including [s]. *)
Definition commands_through (env : Env) (s : Step) : list (list string) :=
  concat (map (step_commands env) (steps_before s ++ [s])).

(** State [s], entered in [st], fails: the operator declines at the
    environment guard, the interpreter is older than 3.10 at the version
    guard, the step function returns [False] at the other states. *)
Definition fails (env : Env) (s : Step) (st : State) : Prop :=
  match s with
  | EnvGuard =>
      check_virtual_env env = false /\
      exists response rest,
        stdin st = response :: rest /\ affirmative response = false
  | VersionGuard => tuple_lt (version_info (sys env)) [3; 10]%Z = true
  | _ => result (step_call env s st) = Ret false
  end.

(** Strict short-circuit ordering with exit status 1, for every state: when
    the run reaches [s] and [s] fails, the program ends with status 1 having
    invoked the commands of the states up to [s] and no other. *)
Definition short_circuits_with_status_1 (env : Env) (st : State) : Prop :=
  forall s st1 t1,
    run_to env s st = (Ret tt, st1, t1) ->
    fails env s st1 ->
    exit_code (result (main env st)) = 1%Z /\
    commands_run (trace (main env st)) = commands_through env s.

(** Two programs that behave alike from every state. *)
Definition meq {A} (m m' : M A) : Prop := forall st, m st = m' st.

(** A program that never reads standard input. *)
Definition silent {A} (m : M A) : Prop :=
  forall st, prompts (trace (m st)) = [] /\ stdin (final (m st)) = stdin st.

(** ** Surroundings to run the program in

    Concrete interpreters, command behaviours and states, on which the
    definitions above can be evaluated. *)

Definition sys_venv : Sys := {|
  executable := "/work/venv/bin/python";
  version_info := [3; 11; 4]%Z;
  version := "3.11.4 (main)";
  real_prefix := None;
  base_prefix := Some "/usr";
  prefix := "/work/venv"
|}.

Definition sys_system : Sys := {|
  executable := "/usr/bin/python3";
  version_info := [3; 11; 4]%Z;
  version := "3.11.4 (main)";
  real_prefix := None;
  base_prefix := Some "/usr";
  prefix := "/usr"
|}.

(** The same surroundings with another interpreter version. *)
Definition with_version (env : Env) (info : list Z) (text : string) : Env := {|
  sys := {|
    executable := executable (sys env);
    version_info := info;
    version := text;
    real_prefix := real_prefix (sys env);
    base_prefix := base_prefix (sys env);
    prefix := prefix (sys env)
  |};
  subprocess := subprocess env;
  str_exn := str_exn env
|}.

Definition str_exn_sample (e : PyExn) : string :=
  match e with
  | CalledProcessError _ cmd _ =>
      "Command '" +:+ join " " cmd +:+ "' returned non-zero exit status."
  | FileNotFoundError filename =>
      "[Errno 2] No such file or directory: '" +:+ filename +:+ "'"
  | EOFError => "EOF when reading a line"
  | SystemExit _ => ""
  | ImportError msg | RuntimeError msg => msg
  end.

Definition head_is (name : string) (command : list string) : bool :=
  match command with
  | c :: _ => String.eqb c name
  | [] => false
  end.

Definition mentions (word : string) (command : list string) : bool :=
  existsb (String.eqb word) command.

(** Every command succeeds silently, except the chosen ones, which end as
    [how] says. *)
Definition behaving (chosen : list string -> bool)
    (how : gmap string string -> Outcome)
    (command : list string) (files : gmap string string) : Outcome :=
  if chosen command then how files else Exited 0 "" "" files.

Definition surroundings (s : Sys)
    (commands : list string -> gmap string string -> Outcome) : Env :=
  {| sys := s; subprocess := commands; str_exn := str_exn_sample |}.

(** Everything is installed and works. *)
Definition env_all_fine : Env :=
  surroundings sys_venv (behaving (fun _ => false) (Exited 0 "" "")).

(** The manifest has an invalid entry: [pip install -r] exits with 1. *)
Definition env_bad_manifest : Env :=
  surroundings sys_venv
    (behaving (mentions "requirements.txt")
       (Exited 1 "" "ERROR: Invalid requirement: '=broken' (from line 1 of requirements.txt)")).

(** R is not on the search path: neither [R] nor [Rscript] can be started. *)
Definition env_r_absent : Env :=
  surroundings sys_venv
    (fun command files =>
       if head_is "R" command then NotFound "R"
       else if head_is "Rscript" command then NotFound "Rscript"
       else Exited 0 "" "" files).

(** [R --version] starts and exits with a non-zero status. *)
Definition env_r_broken : Env :=
  surroundings sys_venv
    (behaving (head_is "R") (Exited 2 "" "R: cannot open shared object file")).

(** The generated R script fails. *)
Definition env_rscript_fails : Env :=
  surroundings sys_venv
    (behaving (head_is "Rscript") (Exited 1 "" "Error in library(pkg)")).

(** The generated validation script fails. *)
Definition env_verify_fails : Env :=
  surroundings sys_venv
    (behaving (mentions "verify_installation.py") (Exited 1 "✗ polars" "")).

(** Outside a virtual environment, everything installed. *)
Definition env_system : Env :=
  surroundings sys_system (behaving (fun _ => false) (Exited 0 "" "")).

Definition empty_dir (answers : list string) : State :=
  {| fs := ∅; stdin := answers |}.

(** The command ended with status 0. *)
Definition succeeded (o : Outcome) : bool :=
  match o with
  | Exited returncode _ _ _ => (returncode =? 0)%Z
  | NotFound _ => false
  end.

(** ** The generated R script

    The text of [r_script] is an R program.  It is embedded here over the
    package library of the machine: the list of installed package names
    ([installed.packages()[,"Package"]]) and what [install.packages] makes
    of it.  [library(pkg)] loads an installed package and is an R error
    otherwise; under [Rscript] an error ends the script. *)
Module RScript.

Inductive REvent : Type :=
| Cat (text : string)
| InstallPackages (pkgs : list string) (repos : string)
| Library (pkg : string).

(** How the script ends: at its last line, or at the [library] call that
    raised the error. *)
Inductive RStatus : Type :=
| Completed
| Halted (pkg : string).

Definition exit_status (s : RStatus) : Z :=
  match s with
  | Completed => 0
  | Halted _ => 1
  end.

(** [pkg %in% installed]. *)
Definition is_installed (installed : list string) (pkg : string) : bool :=
  existsb (String.eqb pkg) installed.

(** [packages[!(packages %in% installed.packages()[,"Package"])]]. *)
Definition missing_packages (packages installed : list string) : list string :=
  List.filter (fun pkg => negb (is_installed installed pkg)) packages.

(** [cat(a, b, ...)] writes its arguments separated by a space. *)
Definition cat (args : list string) : REvent := Cat (join " " args).

(** The [for(pkg in packages)] loop. *)
Fixpoint load_packages (installed packages : list string)
    : RStatus * list REvent :=
  match packages with
  | [] => (Completed, [])
  | pkg :: rest =>
      if is_installed installed pkg then
        match load_packages installed rest with
        | (status, t) =>
            (status,
             Library pkg :: cat ["✓"; pkg; "loaded successfully" +:+ nl] :: t)
        end
      else (Halted pkg, [Library pkg])
  end.

(** The script on the vector [packages].  [install] is the effect of
    [install.packages] on the library: from the requested names and the
    installed names to the installed names afterwards. *)
Definition script (install : list string -> list string -> list string)
    (packages installed : list string)
    : RStatus * list string * list REvent :=
  let missing_packages := missing_packages packages installed in
  let '(installed', t1) :=
    if (0 <? length missing_packages)%nat then
      (install missing_packages installed,
       [cat ["Installing missing packages:";
             join ", " missing_packages; nl];
        InstallPackages missing_packages "https://cran.r-project.org/"])
    else
      (installed, [cat ["All R packages are already installed" +:+ nl]]) in
  match load_packages installed' packages with
  | (status, t2) =>
      (status, installed',
       t1 ++ cat ["Loading packages to verify installation..." +:+ nl] :: t2)
  end.

(** The script that [install_r_packages] writes: [packages] is the vector
    that [.format] put into the text. *)
Definition run (install : list string -> list string -> list string)
    (installed : list string) : RStatus * list string * list REvent :=
  script install r_packages installed.

(** The install actions, the load attempts and the console of a run. *)
Fixpoint installs (t : list REvent) : list (list string) :=
  match t with
  | [] => []
  | InstallPackages pkgs _ :: t' => pkgs :: installs t'
  | _ :: t' => installs t'
  end.

Fixpoint loads (t : list REvent) : list string :=
  match t with
  | [] => []
  | Library pkg :: t' => pkg :: loads t'
  | _ :: t' => loads t'
  end.


Definition online (pkgs installed : list string) : list string :=
  pkgs ++ installed.

End RScript.

(** ** The generated validation script

    The text of [test_script] is a Python program; it is embedded in the
    monad of the main program.  What lies outside it is which modules can be
    imported and what the R bridge does with a piece of R code. *)
Module VerifyScript.

(** [None]: the import or the evaluation goes through; [Some e]: it raises
    [e].  [render] is [str(e)] in an f-string. *)
Record World : Type := {
  import_module : string -> option PyExn;
  r_eval : string -> option PyExn;
  render : PyExn -> string
}.

Definition python_packages : list string :=
  ["pandas"; "polars"; "sklearn"; "statsmodels";
   "seaborn"; "matplotlib"; "openpyxl"; "pyarrow"; "jupyter"].

Definition r_packages : list string := ["lme4"; "lmerTest"; "emmeans"; "MASS"].

(** [for x in l: body]. *)
Fixpoint for_each {A} (l : list A) (body : A -> M unit) : M unit :=
  match l with
  | [] => mret tt
  | x :: l' => body x;; for_each l' body
  end.

(** [except Exception] catches every exception but [SystemExit]. *)
Definition is_exception (e : PyExn) : bool :=
  match e with
  | SystemExit _ => false
  | _ => true
  end.

Section Script.

Context (w : World).

(** [__import__(name)] and [import name]. *)
Definition import (name : string) : M unit := fun st =>
  match import_module w name with
  | None => (Ret tt, st, [EvImport name])
  | Some e => (Raise e, st, [EvImport name])
  end.

(** [from module import name], keyed by the dotted path. *)
Definition import_from (module name : string) : M unit :=
  import (module +:+ "." +:+ name).

(** [ro.r(code)]. *)
Definition ro_r (code : string) : M unit := fun st =>
  match r_eval w code with
  | None => (Ret tt, st, [EvEval code])
  | Some e => (Raise e, st, [EvEval code])
  end.

(** The first loop of the script. *)
Definition check_python_package (pkg : string) : M unit :=
  try_except
    (import pkg;;
     print ("✓ " +:+ pkg))
    (fun e =>
       match e with
       | ImportError _ =>
           Some (print ("✗ " +:+ pkg +:+ ": " +:+ render w e);;
                 sys_exit 1)
       | _ => None
       end).

(** The loop inside [with localconverter(...)]; entering and leaving the
    conversion context prints nothing. *)
Definition check_r_package (pkg : string) : M unit :=
  try_except
    (ro_r ("library(" +:+ pkg +:+ ")");;
     print ("✓ R package: " +:+ pkg))
    (fun e =>
       if is_exception e then
         Some (print ("✗ R package " +:+ pkg +:+ ": " +:+ render w e);;
               sys_exit 1)
       else None).

Definition completion_banner : string :=
  nl +:+ "🎉 All packages installed and verified successfully!".

Definition script : M unit :=
  for_each python_packages check_python_package;;
  try_except
    (import "rpy2.robjects";;
     import_from "rpy2.robjects" "pandas2ri";;
     import_from "rpy2.robjects.conversion" "localconverter";;
     for_each r_packages check_r_package;;
     print "✓ rpy2 and R packages working correctly")
    (fun e =>
       match e with
       | ImportError _ => Some (print ("✗ rpy2: " +:+ render w e);; sys_exit 1)
       | _ => None
       end);;
  print completion_banner.

End Script.


(** The console of the loop over a list of packages that all import. *)
Definition checked (pkgs : list string) : list Event :=
  flat_map (fun pkg => [EvImport pkg; EvPrint ("✓ " +:+ pkg)]) pkgs.


(** Every module is there and the bridge works. *)
Definition world_fine : World := {|
  import_module := fun _ => None;
  r_eval := fun _ => None;
  render := str_exn_sample
|}.


End VerifyScript.

(** ** Further surroundings *)

(** [pip install --upgrade pip] exits with 1; everything else works. *)
Definition env_upgrade_fails : Env :=
  surroundings sys_venv
    (behaving (mentions "--upgrade") (Exited 1 "" "ERROR: No matching distribution")).

(** [R] is on the search path but [Rscript] is not. *)
Definition env_rscript_absent : Env :=
  surroundings sys_venv
    (fun command files =>
       if head_is "Rscript" command then NotFound "Rscript"
       else Exited 0 "" "" files).

(** A working directory that already holds a file with the name of the
    temporary R script. *)
Definition dir_with_notes : State :=
  {| fs := {["install_r_packages.R" := "# my own notes"]}; stdin := [] |}.

(** A program whose [sys.exit] codes are all among [codes]. *)
Definition exits_within {A} (codes : list Z) (m : M A) : Prop :=
  forall st code, result (m st) = Raise (SystemExit code) -> In code codes.

(** The commands of the states from [s] on. *)
Definition commands_from (env : Env) (s : Step) : list (list string) :=
  match s with
  | EnvGuard | VersionGuard | InstallPrimary =>
      [pip_upgrade_command env; pip_requirements_command env;
       r_version_command; rscript_command; verify_command env]
  | CheckSecondaryRuntime =>
      [r_version_command; rscript_command; verify_command env]
  | InstallSecondary => [rscript_command; verify_command env]
  | Verify => [verify_command env]
  end.

(** What a run from state [s] that returns leaves: all the commands from
    the state on, the closing lines as the end of the console, and no
    validation script. *)
Definition completed (env : Env) (s : Step) (st' : State) (t : list Event)
    : Prop :=
  commands_run t = commands_from env s /\
  (exists t0, t = t0 ++ map EvPrint epilogue_lines) /\
  fs st' !! "verify_installation.py" = None.

(** ** Further worlds for the validation script *)

(** Every Python package is there but the bridge is not installed. *)
Definition world_no_rpy2 : VerifyScript.World := {|
  VerifyScript.import_module := fun name =>
    if String.eqb name "rpy2.robjects"
    then Some (ImportError "No module named 'rpy2'")
    else None;
  VerifyScript.r_eval := fun _ => None;
  VerifyScript.render := str_exn_sample
|}.


(** sklearn is installed but broken: importing it raises an exception that
    is not an [ImportError]. *)
Definition world_broken_sklearn : VerifyScript.World := {|
  VerifyScript.import_module := fun name =>
    if String.eqb name "sklearn"
    then Some (RuntimeError "numpy.dtype size changed")
    else None;
  VerifyScript.r_eval := fun _ => None;
  VerifyScript.render := str_exn_sample
|}.

(** ** File effects *)

(** An event that writes or removes no file outside [names]. *)
Definition touches_only (names : list string) (ev : Event) : Prop :=
  match ev with
  | EvWrite path _ | EvRemove path => In path names
  | _ => True
  end.

(** A program whose own writes and removals stay within [names]. *)
Definition confined {A} (names : list string) (m : M A) : Prop :=
  forall st, Forall (touches_only names) (trace (m st)).

(** * Properties *)

(** ** The monad *)

Lemma bind_run {A B} (m : M A) (f : A -> M B) (st : State) :
  (m ≫= f) st =
  match m st with
  | (Ret a, st', t) =>
      match f a st' with
      | (r, st'', t') => (r, st'', t ++ t')
      end
  | (Raise e, st', t) => (Raise e, st', t)
  end.
Proof. reflexivity. Qed.

Lemma bind_assoc {A B C} (m : M A) (f : A -> M B) (g : B -> M C) (st : State) :
  ((m ≫= f) ≫= g) st = (m ≫= (fun a => f a ≫= g)) st.
Proof.
  rewrite !bind_run.
  destruct (m st) as [[[a|e] st1] t1]; [|reflexivity].
  rewrite !bind_run.
  destruct (f a st1) as [[[b|e] st2] t2]; [|reflexivity].
  destruct (g b st2) as [[r st3] t3].
  now rewrite app_assoc.
Qed.

Lemma print_bind {B} (line : string) (k : M B) (st : State) :
  (print line;; k) st =
  match k st with
  | (r, st', t) => (r, st', EvPrint line :: t)
  end.
Proof. reflexivity. Qed.

(** ** The command runner *)

Section RunCommand.

Context (env : Env).

Lemma run_command_spec (command : list string) (description : string) (st : State) :
  run_command env command description st =
  let o := subprocess env command (fs st) in
  match o with
  | Exited returncode _ _ files =>
      (Ret (returncode =? 0)%Z, {| fs := files; stdin := stdin st |},
       run_command_events env o command description)
  | NotFound filename =>
      (Raise (FileNotFoundError filename), st,
       run_command_events env o command description)
  end.
Proof.
  unfold run_command, run_command_events, run_command_report, mbind, M_bind,
    bind, try_except, subprocess_run, print, when, mret, M_ret, ret.
  cbn zeta. destruct (subprocess env command (fs st)) as [rc out err files|f].
  - destruct (rc =? 0)%Z; [destruct (truthy out)|destruct (truthy err)];
      reflexivity.
  - reflexivity.
Qed.

End RunCommand.

Section Steps.

Context (env : Env).

Lemma install_python_packages_spec (st : State) :
  install_python_packages env st =
  let o1 := subprocess env (pip_upgrade_command env) (fs st) in
  let head := EvPrint (nl +:+ "=== Installing Python Packages ===")
              :: run_command_events env o1 (pip_upgrade_command env) "Upgrading pip" in
  match o1 with
  | Exited _ _ _ files1 =>
      let o2 := subprocess env (pip_requirements_command env) files1 in
      let t := head ++ run_command_events env o2 (pip_requirements_command env)
                         "Installing Python packages" in
      match o2 with
      | Exited _ _ _ files2 => (Ret true, {| fs := files2; stdin := stdin st |}, t)
      | NotFound filename =>
          (Raise (FileNotFoundError filename),
           {| fs := files1; stdin := stdin st |}, t)
      end
  | NotFound filename => (Raise (FileNotFoundError filename), st, head)
  end.
Proof.
  unfold install_python_packages. rewrite print_bind, bind_run, run_command_spec.
  cbn zeta.
  destruct (subprocess env (pip_upgrade_command env) (fs st))
    as [rc1 out1 err1 files1|f1]; [|reflexivity].
  rewrite bind_run, run_command_spec. cbn [fs stdin].
  destruct (subprocess env (pip_requirements_command env) files1)
    as [rc2 out2 err2 files2|f2]; cbn; rewrite ?app_nil_r; reflexivity.
Qed.

Lemma check_r_installation_spec (st : State) :
  check_r_installation env st =
  let o := subprocess env r_version_command (fs st) in
  let head := EvPrint (nl +:+ "=== Checking R Installation ===")
              :: run_command_events env o r_version_command "Checking R version" in
  match o with
  | Exited returncode _ _ files =>
      (Ret (returncode =? 0)%Z, {| fs := files; stdin := stdin st |},
       head ++
       (if (returncode =? 0)%Z then []
        else EvPrint (nl +:+ "⚠️  R is not installed or not in PATH")
             :: EvPrint "Please install R first:"
             :: map EvPrint r_install_guidance))
  | NotFound filename => (Raise (FileNotFoundError filename), st, head)
  end.
Proof.
  unfold check_r_installation. rewrite print_bind, bind_run, run_command_spec.
  cbn zeta.
  destruct (subprocess env r_version_command (fs st))
    as [rc out err files|f]; [|reflexivity].
  destruct (rc =? 0)%Z; cbn; rewrite ?app_nil_r; reflexivity.
Qed.

(** Removing the temporary file when it is there: the [if os.path.exists]
    and [os.remove] of both script-running steps. *)
Lemma cleanup_spec {B} (path : string) (k : M B) (st : State) :
  ((present ← os_path_exists path; when present (os_remove path));; k) st =
  match k {| fs := delete path (fs st); stdin := stdin st |} with
  | (r, st', t) =>
      (r, st', match fs st !! path with
               | Some _ => [EvRemove path]
               | None => []
               end ++ t)
  end.
Proof.
  rewrite bind_assoc, bind_run. unfold os_path_exists at 1.
  rewrite bind_run. unfold os_remove, when.
  destruct (fs st !! path) as [content|] eqn:Hfile.
  - rewrite bool_decide_eq_true_2 by eauto. rewrite Hfile.
    destruct (k _) as [[r st'] t]. reflexivity.
  - rewrite bool_decide_eq_false_2 by (intros [x Hx]; discriminate).
    rewrite delete_id by exact Hfile.
    destruct st as [files input]. cbn.
    destruct (k _) as [[r st'] t]. reflexivity.
Qed.

Lemma install_r_packages_spec (st : State) :
  install_r_packages env st =
  let written := <["install_r_packages.R" := r_script]> (fs st) in
  let o := subprocess env rscript_command written in
  let head := [EvPrint (nl +:+ "=== Installing R Packages ===");
               EvWrite "install_r_packages.R" r_script]
              ++ run_command_events env o rscript_command "Installing R packages" in
  match o with
  | Exited returncode _ _ files =>
      (Ret (returncode =? 0)%Z,
       {| fs := delete "install_r_packages.R" files; stdin := stdin st |},
       head ++ match files !! "install_r_packages.R" with
               | Some _ => [EvRemove "install_r_packages.R"]
               | None => []
               end)
  | NotFound filename =>
      (Raise (FileNotFoundError filename),
       {| fs := written; stdin := stdin st |}, head)
  end.
Proof.
  unfold install_r_packages. rewrite print_bind.
  rewrite bind_run. unfold open_write at 1.
  rewrite bind_run, run_command_spec. cbn zeta. cbn [fs stdin].
  destruct (subprocess env rscript_command _) as [rc out err files|f];
    [|reflexivity].
  rewrite cleanup_spec. cbn. rewrite ?app_nil_r. reflexivity.
Qed.

Lemma verify_installation_spec (st : State) :
  verify_installation env st =
  let written := <["verify_installation.py" := test_script]> (fs st) in
  let o := subprocess env (verify_command env) written in
  let head := [EvPrint (nl +:+ "=== Verifying Installation ===");
               EvWrite "verify_installation.py" test_script]
              ++ run_command_events env o (verify_command env)
                   "Verifying installation" in
  match o with
  | Exited returncode _ _ files =>
      (Ret (returncode =? 0)%Z,
       {| fs := delete "verify_installation.py" files; stdin := stdin st |},
       head ++ match files !! "verify_installation.py" with
               | Some _ => [EvRemove "verify_installation.py"]
               | None => []
               end)
  | NotFound filename =>
      (Raise (FileNotFoundError filename),
       {| fs := written; stdin := stdin st |}, head)
  end.
Proof.
  unfold verify_installation. rewrite print_bind.
  rewrite bind_run. unfold open_write at 1.
  rewrite bind_run, run_command_spec. cbn zeta. cbn [fs stdin].
  destruct (subprocess env (verify_command env) _) as [rc out err files|f];
    [|reflexivity].
  rewrite cleanup_spec. cbn. rewrite ?app_nil_r. reflexivity.
Qed.

End Steps.

(** ** The orchestrator *)

Lemma meq_trans {A} (m1 m2 m3 : M A) : meq m1 m2 -> meq m2 m3 -> meq m1 m3.
Proof. intros H12 H23 st. now rewrite H12. Qed.

Lemma meq_sym {A} (m1 m2 : M A) : meq m1 m2 -> meq m2 m1.
Proof. intros H st. now rewrite H. Qed.

Lemma bind_meq_r {A B} (m : M A) (k k' : A -> M B) :
  (forall a, meq (k a) (k' a)) -> meq (m ≫= k) (m ≫= k').
Proof.
  intros Hk st. rewrite !bind_run.
  destruct (m st) as [[[a|e] st1] t1]; [|reflexivity].
  now rewrite Hk.
Qed.

Lemma ret_bind {A B} (a : A) (k : A -> M B) : meq (mret a ≫= k) (k a).
Proof.
  intros st. rewrite bind_run. cbn.
  destruct (k a st) as [[r st'] t]. reflexivity.
Qed.

(** If a sequence returns, both halves returned. *)
Lemma bind_ret_inv {A B} (m : M A) (k : A -> M B) st b st2 t :
  (m ≫= k) st = (Ret b, st2, t) ->
  exists a st1 t1 t2,
    m st = (Ret a, st1, t1) /\ k a st1 = (Ret b, st2, t2) /\ t = t1 ++ t2.
Proof.
  rewrite bind_run.
  destruct (m st) as [[[a|e] st1] t1]; [|discriminate].
  destruct (k a st1) as [[r st'] t2] eqn:Hk.
  intros [= -> -> <-]. eauto 8.
Qed.

Section Orchestrator.

Context (env : Env).

Lemma abort_spec (s : Step) (st : State) :
  is_call s = true ->
  abort s st = (Raise (SystemExit 1), st, map EvPrint (banner_lines s)).
Proof. destruct s; (discriminate || reflexivity). Qed.

Lemma gated_spec (step : M bool) (s : Step) (rest : M unit) (st : State) :
  is_call s = true ->
  gated step (abort s) rest st =
  match step st with
  | (Ret true, st1, t1) =>
      match rest st1 with
      | (r, st2, t2) => (r, st2, t1 ++ t2)
      end
  | (Ret false, st1, t1) =>
      (Raise (SystemExit 1), st1, t1 ++ map EvPrint (banner_lines s))
  | (Raise e, st1, t1) => (Raise e, st1, t1)
  end.
Proof.
  intros Hs. unfold gated. rewrite bind_run.
  destruct (step st) as [[[[|]|e] st1] t1]; [| |reflexivity].
  - cbn [negb]. rewrite ret_bind.
    destruct (rest st1) as [[r st2] t2]. reflexivity.
  - cbn [negb]. rewrite bind_run, abort_spec by exact Hs. reflexivity.
Qed.

Lemma main_unfold : meq (main env) (preamble;; main_from env EnvGuard).
Proof. intros st. unfold preamble. rewrite bind_assoc. reflexivity. Qed.

Lemma env_guard_spec (st : State) :
  env_guard env st =
  if check_virtual_env env then (Ret tt, st, [])
  else
    let asked := map EvPrint venv_warning ++ [EvInput venv_prompt] in
    match stdin st with
    | [] => (Raise EOFError, st, asked)
    | response :: rest =>
        let st' := {| fs := fs st; stdin := rest |} in
        if affirmative response then (Ret tt, st', asked)
        else (Raise (SystemExit 0), st', asked ++ [EvPrint cancelled_line])
    end.
Proof.
  unfold env_guard. destruct (check_virtual_env env); [reflexivity|].
  cbn [negb]. rewrite !print_bind, bind_run. unfold input at 1.
  destruct (stdin st) as [|response rest]; [reflexivity|].
  unfold affirmative. destruct (String.eqb (lower response) "y"); reflexivity.
Qed.

Lemma version_guard_spec (st : State) :
  version_guard env st = (Ret tt, st, map EvPrint (version_warning env)).
Proof.
  unfold version_guard, version_warning, when.
  destruct (tuple_lt _ _); reflexivity.
Qed.

Lemma preamble_spec (st : State) :
  preamble st = (Ret tt, st, map EvPrint preamble_lines).
Proof. reflexivity. Qed.

Lemma epilogue_spec (st : State) :
  epilogue st = (Ret tt, st, map EvPrint epilogue_lines).
Proof. reflexivity. Qed.

Lemma gated_ret_bind (step : M bool) (on_failure k : M unit) :
  meq (gated step on_failure (mret tt);; k) (gated step on_failure k).
Proof.
  unfold gated. intros st. rewrite bind_assoc. revert st.
  apply bind_meq_r. intros ok st. rewrite bind_assoc. revert st.
  apply bind_meq_r. intros []. apply ret_bind.
Qed.

Lemma run_step_then (s s' : Step) :
  next s = Some s' ->
  meq (run_step env s;; main_from env s') (main_from env s).
Proof.
  destruct s; intros [= <-]; try (intros st; reflexivity);
    apply gated_ret_bind.
Qed.

Lemma run_to_next (s s' : Step) :
  next s = Some s' -> run_to env s' = (run_to env s;; run_step env s).
Proof. destruct s; intros [= <-]; reflexivity. Qed.

Lemma main_split_next (s s' : Step) :
  next s = Some s' ->
  meq (main env) (run_to env s;; main_from env s) ->
  meq (main env) (run_to env s';; main_from env s').
Proof.
  intros Hn Hs st. rewrite Hs, (run_to_next s s' Hn), bind_assoc.
  revert st. apply bind_meq_r. intros []. apply meq_sym, run_step_then, Hn.
Qed.

(** [main] is the run up to any state followed by the run from it. *)
Lemma main_split (s : Step) : meq (main env) (run_to env s;; main_from env s).
Proof.
  pose proof main_unfold as H0.
  change (meq (main env) (run_to env EnvGuard;; main_from env EnvGuard)) in H0.
  pose proof (main_split_next EnvGuard _ eq_refl H0) as H1.
  pose proof (main_split_next VersionGuard _ eq_refl H1) as H2.
  pose proof (main_split_next InstallPrimary _ eq_refl H2) as H3.
  pose proof (main_split_next CheckSecondaryRuntime _ eq_refl H3) as H4.
  pose proof (main_split_next InstallSecondary _ eq_refl H4) as H5.
  destruct s; assumption.
Qed.

End Orchestrator.

(** ** The commands of a run *)

Lemma commands_run_app (t1 t2 : list Event) :
  commands_run (t1 ++ t2) = commands_run t1 ++ commands_run t2.
Proof.
  induction t1 as [|[l|p|c|p c|p|n|c] t1 IH]; cbn; rewrite ?IH; reflexivity.
Qed.

Lemma commands_run_print (l : string) (t : list Event) :
  commands_run (EvPrint l :: t) = commands_run t.
Proof. reflexivity. Qed.

Lemma commands_run_write (p c : string) (t : list Event) :
  commands_run (EvWrite p c :: t) = commands_run t.
Proof. reflexivity. Qed.

Lemma commands_run_prints (ls : list string) :
  commands_run (map EvPrint ls) = [].
Proof. induction ls as [|l ls IH]; [reflexivity|exact IH]. Qed.

Lemma files_written_app (t1 t2 : list Event) :
  files_written (t1 ++ t2) = files_written t1 ++ files_written t2.
Proof.
  induction t1 as [|[l|p|c|p c|p|n|c] t1 IH]; cbn; rewrite ?IH; reflexivity.
Qed.

Lemma files_written_prints (ls : list string) :
  files_written (map EvPrint ls) = [].
Proof. induction ls as [|l ls IH]; [reflexivity|exact IH]. Qed.

Section Commands.

Context (env : Env).

Lemma commands_run_report (o : Outcome) (command : list string) :
  commands_run (run_command_report env o command) = [].
Proof.
  destruct o as [rc out err files|f]; cbn; [|reflexivity].
  destruct (rc =? 0)%Z; [destruct (truthy out)|destruct (truthy err)];
    reflexivity.
Qed.

Lemma commands_run_events (o : Outcome) (command : list string)
    (description : string) :
  commands_run (run_command_events env o command description) = [command].
Proof.
  unfold run_command_events. rewrite commands_run_app, commands_run_report.
  reflexivity.
Qed.

#[local] Opaque run_command_events.

(** A step function that returns has invoked exactly its own commands. *)
Lemma step_call_commands (s : Step) st b st' t :
  is_call s = true ->
  step_call env s st = (Ret b, st', t) ->
  commands_run t = step_commands env s.
Proof.
  destruct s; try discriminate; intros _; cbn [step_call step_commands].
  - rewrite install_python_packages_spec. cbn zeta.
    destruct (subprocess env (pip_upgrade_command env) (fs st))
      as [rc1 out1 err1 files1|f1]; [|discriminate].
    destruct (subprocess env (pip_requirements_command env) files1)
      as [rc2 out2 err2 files2|f2] eqn:H2; [|discriminate].
    intros [= _ _ <-]. rewrite commands_run_print.
    now rewrite commands_run_app, !commands_run_events.
  - rewrite check_r_installation_spec. cbn zeta.
    destruct (subprocess env r_version_command (fs st))
      as [rc out err files|f]; [|discriminate].
    intros [= _ _ <-]. rewrite commands_run_print.
    rewrite commands_run_app, commands_run_events.
    destruct (rc =? 0)%Z; reflexivity.
  - rewrite install_r_packages_spec. cbn zeta.
    destruct (subprocess env rscript_command _)
      as [rc out err files|f]; [|discriminate].
    intros [= _ _ <-].
    rewrite commands_run_print, commands_run_write.
    rewrite commands_run_app, commands_run_events.
    destruct (files !! _); reflexivity.
  - rewrite verify_installation_spec. cbn zeta.
    destruct (subprocess env (verify_command env) _)
      as [rc out err files|f]; [|discriminate].
    intros [= _ _ <-].
    rewrite commands_run_print, commands_run_write.
    rewrite commands_run_app, commands_run_events.
    destruct (files !! _); reflexivity.
Qed.

(** A state of the orchestrator that lets the program go on has invoked
    exactly its own commands. *)
Lemma run_step_commands (s : Step) st st' t :
  run_step env s st = (Ret tt, st', t) ->
  commands_run t = step_commands env s.
Proof.
  destruct (is_call s) eqn:Hs.
  - assert (run_step env s = gated (step_call env s) (abort s) (mret tt)) as ->
      by (destruct s; (discriminate || reflexivity)).
    rewrite gated_spec by exact Hs.
    destruct (step_call env s st) as [[[[|]|e] st1] t1] eqn:Hc; try discriminate.
    cbn. intros [= _ <-]. rewrite app_nil_r.
    exact (step_call_commands s _ _ _ _ Hs Hc).
  - destruct s; try discriminate; cbn [run_step step_commands].
    + rewrite env_guard_spec. destruct (check_virtual_env env).
      * now intros [= _ <-].
      * cbn zeta. destruct (stdin st) as [|response rest]; [discriminate|].
        destruct (affirmative response); [|discriminate].
        intros [= _ <-]. reflexivity.
    + rewrite version_guard_spec. intros [= _ <-]. apply commands_run_prints.
Qed.

Lemma run_steps_commands (l : list Step) (m : M unit) (cs : list (list string)) :
  (forall st st1 t1, m st = (Ret tt, st1, t1) -> commands_run t1 = cs) ->
  forall st st1 t1,
    fold_left (fun m s' => m;; run_step env s') l m st = (Ret tt, st1, t1) ->
    commands_run t1 = cs ++ concat (map (step_commands env) l).
Proof.
  revert m cs. induction l as [|s l IH]; intros m cs Hm st st1 t1.
  - cbn. rewrite app_nil_r. apply Hm.
  - cbn [fold_left map concat]. rewrite app_assoc. apply IH.
    clear st st1 t1. intros st st2 t Hrun.
    apply bind_ret_inv in Hrun as ([] & st1 & t1 & t2 & H1 & H2 & ->).
    rewrite commands_run_app, (Hm _ _ _ H1), (run_step_commands _ _ _ _ H2).
    reflexivity.
Qed.

(** When the run reaches a state, the commands invoked so far are those of
    the states before it, all of them and in order. *)
Lemma run_to_commands (s : Step) st st1 t1 :
  run_to env s st = (Ret tt, st1, t1) ->
  commands_run t1 = concat (map (step_commands env) (steps_before s)).
Proof.
  intros Hrun. apply (run_steps_commands _ preamble [] ) in Hrun; [exact Hrun|].
  intros st0 st0' t0. rewrite preamble_spec. now intros [= _ <-].
Qed.

#[local] Transparent run_command_events.

End Commands.

(** ** Short circuits *)

Section ShortCircuit.

Context (env : Env).

Lemma commands_through_snoc (s : Step) :
  commands_through env s =
  concat (map (step_commands env) (steps_before s)) ++ step_commands env s.
Proof.
  unfold commands_through. rewrite map_app, concat_app. cbn.
  now rewrite app_nil_r.
Qed.

(** The run from a call state whose step function reports failure. *)
Lemma main_from_failed (s : Step) st st' t :
  is_call s = true ->
  step_call env s st = (Ret false, st', t) ->
  main_from env s st =
  (Raise (SystemExit 1), st', t ++ map EvPrint (banner_lines s)).
Proof.
  intros Hs Hcall.
  destruct s; try discriminate; cbn [main_from];
    rewrite gated_spec by reflexivity; rewrite Hcall; reflexivity.
Qed.

(** The run from a call state whose step function reports success. *)
Lemma main_from_passed (s s' : Step) st st' t :
  is_call s = true ->
  next s = Some s' ->
  step_call env s st = (Ret true, st', t) ->
  main_from env s st =
  match main_from env s' st' with
  | (r, st2, t2) => (r, st2, t ++ t2)
  end.
Proof.
  intros Hs Hn Hcall.
  destruct s; try discriminate; injection Hn as <-; cbn [main_from];
    rewrite gated_spec by reflexivity; rewrite Hcall; reflexivity.
Qed.

Lemma main_from_version_guard (st : State) :
  main_from env VersionGuard st =
  match main_from env InstallPrimary st with
  | (r, st2, t2) => (r, st2, map EvPrint (version_warning env) ++ t2)
  end.
Proof.
  change (main_from env VersionGuard)
    with (version_guard env;; main_from env InstallPrimary).
  rewrite bind_run, version_guard_spec. reflexivity.
Qed.

Lemma main_from_env_guard (st : State) :
  main_from env EnvGuard st =
  match env_guard env st with
  | (Ret _, st1, t1) =>
      match main_from env VersionGuard st1 with
      | (r, st2, t2) => (r, st2, t1 ++ t2)
      end
  | (Raise e, st1, t1) => (Raise e, st1, t1)
  end.
Proof. reflexivity. Qed.

(** [main], once it is known how far the run got. *)
Lemma main_reaching (s : Step) st st1 t1 :
  run_to env s st = (Ret tt, st1, t1) ->
  main env st =
  match main_from env s st1 with
  | (r, st2, t2) => (r, st2, t1 ++ t2)
  end.
Proof. intros Hrun. now rewrite (main_split env s st), bind_run, Hrun. Qed.

End ShortCircuit.

(** The first command of the primary installer is invoked whenever the run
    gets to the installer, whatever the command then does. *)
Lemma install_primary_runs (env : Env) (st : State) :
  In (EvRun (pip_upgrade_command env)) (trace (main_from env InstallPrimary st)).
Proof.
  cbn [main_from]. rewrite gated_spec by reflexivity.
  cbn [step_call]. rewrite install_python_packages_spec. cbn zeta.
  destruct (subprocess env (pip_upgrade_command env) (fs st))
    as [rc1 out1 err1 files1|f1].
  - destruct (subprocess env (pip_requirements_command env) files1)
      as [rc2 out2 err2 files2|f2].
    + cbv beta iota.
      match goal with
      | |- context [gated ?c ?a ?k ?x] =>
          destruct (gated c a k x) as [[r st2] t2]
      end.
      cbn. auto.
    + cbn. auto.
  - cbn. auto.
Qed.

(** C4, as the code has it.  When the run reaches a state and the state
    fails: at check-secondary-runtime, install-secondary and verify the
    program prints the banner of the state and ends with exit status 1,
    and nothing is invoked after the failing step (the trace ends with the
    banner, and the commands are those of the states up to the failing one);
    a declined environment guard ends the program the same way but with
    exit status 0; a version below 3.10 does not end the program, which goes
    on with the primary installer after the warning. *)
Theorem failing_state_short_circuits (env : Env) (st : State)
    (s : Step) (st1 : State) (t1 : list Event) :
  run_to env s st = (Ret tt, st1, t1) ->
  fails env s st1 ->
  match s with
  | EnvGuard =>
      exit_code (result (main env st)) = 0%Z /\
      trace (main env st) =
        t1 ++ map EvPrint venv_warning
           ++ [EvInput venv_prompt; EvPrint cancelled_line] /\
      commands_run (trace (main env st)) = commands_through env s
  | VersionGuard =>
      main env st =
      match main_from env InstallPrimary st1 with
      | (r, st2, t2) => (r, st2, t1 ++ map EvPrint (version_warning env) ++ t2)
      end
  | InstallPrimary => True
  | CheckSecondaryRuntime | InstallSecondary | Verify =>
      exit_code (result (main env st)) = 1%Z /\
      trace (main env st) =
        t1 ++ trace (step_call env s st1) ++ map EvPrint (banner_lines s) /\
      commands_run (trace (main env st)) = commands_through env s
  end.
Proof.
  intros Hrun Hfail.
  pose proof (run_to_commands env s _ _ _ Hrun) as Hcmds.
  assert (Hcall : is_call s = true ->
            exit_code (result (main env st)) = 1%Z /\
            trace (main env st) =
              t1 ++ trace (step_call env s st1) ++ map EvPrint (banner_lines s) /\
            commands_run (trace (main env st)) = commands_through env s).
  { intros Hs.
    assert (Hr : result (step_call env s st1) = Ret false)
      by (destruct s; (discriminate || exact Hfail)).
    destruct (step_call env s st1) as [[r st2] t2] eqn:Hstep.
    cbn in Hr. subst r.
    rewrite (main_reaching env s _ _ _ Hrun).
    rewrite (main_from_failed env s _ _ _ Hs Hstep).
    repeat split. cbn [trace snd].
    rewrite !commands_run_app, commands_run_prints, app_nil_r, Hcmds.
    rewrite (step_call_commands env s _ _ _ _ Hs Hstep).
    now rewrite commands_through_snoc. }
  destruct s; try (apply Hcall; reflexivity); [| |exact I].
  - destruct Hfail as (Hvenv & response & rest & Hin & Hno).
    rewrite (main_reaching env EnvGuard _ _ _ Hrun).
    rewrite main_from_env_guard, env_guard_spec, Hvenv. cbn zeta.
    rewrite Hin, Hno. repeat split. cbn [trace snd].
    rewrite !commands_run_app, commands_run_prints, Hcmds. reflexivity.
  - rewrite (main_reaching env VersionGuard _ _ _ Hrun).
    rewrite main_from_version_guard.
    destruct (main_from env InstallPrimary st1) as [[r st2] t2]. reflexivity.
Qed.

(** The theorem at work: [R --version] exits with status 2 in a virtual
    environment. *)
Lemma failing_state_short_circuits_witness :
  exit_code (result (main env_r_broken (empty_dir []))) = 1%Z /\
  trace (main env_r_broken (empty_dir [])) =
    trace (run_to env_r_broken CheckSecondaryRuntime (empty_dir []))
    ++ trace (step_call env_r_broken CheckSecondaryRuntime
                (final (run_to env_r_broken CheckSecondaryRuntime (empty_dir []))))
    ++ map EvPrint (banner_lines CheckSecondaryRuntime) /\
  commands_run (trace (main env_r_broken (empty_dir []))) =
    commands_through env_r_broken CheckSecondaryRuntime.
Proof.
  apply (failing_state_short_circuits env_r_broken (empty_dir [])
           CheckSecondaryRuntime
           (final (run_to env_r_broken CheckSecondaryRuntime (empty_dir [])))
           (trace (run_to env_r_broken CheckSecondaryRuntime (empty_dir [])))).
  - vm_compute. reflexivity.
  - vm_compute. reflexivity.
Defined.

(** C4 as stated does not hold: outside a virtual environment, an operator
    who answers n makes the environment guard fail, and the program ends
    with exit status 0, not 1. *)
Lemma declined_guard_exits_0 :
  fails env_system EnvGuard (empty_dir ["n"]) /\
  exit_code (result (main env_system (empty_dir ["n"]))) = 0%Z /\
  ~ short_circuits_with_status_1 env_system (empty_dir ["n"]).
Proof.
  assert (Hfail : fails env_system EnvGuard (empty_dir ["n"])).
  { split; [reflexivity|]. exists "n", []. split; reflexivity. }
  split; [exact Hfail|]. split; [reflexivity|].
  intros Hclaim.
  destruct (Hclaim EnvGuard (empty_dir ["n"])
              (map EvPrint preamble_lines) eq_refl Hfail) as [Hexit _].
  vm_compute in Hexit. discriminate.
Qed.

(** ** The environment guard *)

Lemma lower_ascii_y (c : ascii) :
  lower_ascii c = "y"%char -> c = "y"%char \/ c = "Y"%char.
Proof.
  destruct c as [[] [] [] [] [] [] [] []]; vm_compute; intros H;
    (discriminate H || auto).
Qed.

Lemma lower_empty (s : string) : lower s = "" -> s = "".
Proof. destruct s; [reflexivity|discriminate]. Qed.

(** The answers that count as a yes are the letter y in either case, and
    nothing else. *)
Lemma affirmative_iff (response : string) :
  affirmative response = true <-> response = "y" \/ response = "Y".
Proof.
  unfold affirmative. rewrite String.eqb_eq. split.
  - destruct response as [|c rest]; [discriminate|].
    cbn [lower]. intros [= Hc Hrest].
    apply lower_empty in Hrest as ->.
    destruct (lower_ascii_y c Hc) as [-> | ->]; auto.
  - intros [-> | ->]; reflexivity.
Qed.

(** C5.  Outside a virtual environment the operator is asked once.  The
    answers that count as a yes are y and Y.  On any other answer the program
    prints the cancellation line and ends with exit status 0; it has invoked
    no command and written no file, so none of the four installation steps
    has run.  On a yes the program goes on with the version guard and the
    steps after it, and the primary installer is run. *)
Theorem env_guard_prompt (env : Env) (st : State)
    (response : string) (rest : list string) :
  check_virtual_env env = false ->
  stdin st = response :: rest ->
  let st' := {| fs := fs st; stdin := rest |} in
  let asked :=
    map EvPrint (preamble_lines ++ venv_warning) ++ [EvInput venv_prompt] in
  (affirmative response = true <-> response = "y" \/ response = "Y") /\
  if affirmative response then
    main env st =
      match main_from env VersionGuard st' with
      | (r, st2, t2) => (r, st2, asked ++ t2)
      end /\
    In (EvRun (pip_upgrade_command env)) (trace (main env st))
  else
    main env st = (Raise (SystemExit 0), st', asked ++ [EvPrint cancelled_line]) /\
    exit_code (result (main env st)) = 0%Z /\
    commands_run (trace (main env st)) = [] /\
    files_written (trace (main env st)) = [].
Proof.
  intros Hvenv Hin st' asked. split; [apply affirmative_iff|].
  assert (Hmain : main env st =
            match main_from env EnvGuard st with
            | (r, st2, t2) => (r, st2, map EvPrint preamble_lines ++ t2)
            end)
    by (apply main_reaching; reflexivity).
  rewrite main_from_env_guard, env_guard_spec, Hvenv in Hmain.
  cbn zeta in Hmain. rewrite Hin in Hmain.
  destruct (affirmative response).
  - fold st' in Hmain.
    assert (Hgo : main env st =
              match main_from env VersionGuard st' with
              | (r, st2, t2) => (r, st2, asked ++ t2)
              end).
    { rewrite Hmain. destruct (main_from env VersionGuard st') as [[r st2] t2].
      reflexivity. }
    split; [exact Hgo|]. rewrite Hgo, main_from_version_guard.
    pose proof (install_primary_runs env st') as Hrun.
    destruct (main_from env InstallPrimary st') as [[r st2] t2].
    cbn [trace snd] in *. rewrite !in_app_iff. auto.
  - rewrite Hmain. repeat split.
Qed.

(** The theorem at work: the operator answers n. *)
Lemma env_guard_prompt_witness :
  main env_system (empty_dir ["n"]) =
    (Raise (SystemExit 0), empty_dir [],
     map EvPrint (preamble_lines ++ venv_warning)
     ++ [EvInput venv_prompt; EvPrint cancelled_line]) /\
  exit_code (result (main env_system (empty_dir ["n"]))) = 0%Z /\
  commands_run (trace (main env_system (empty_dir ["n"]))) = [] /\
  files_written (trace (main env_system (empty_dir ["n"]))) = [].
Proof.
  apply (env_guard_prompt env_system (empty_dir ["n"]) "n" []);
    reflexivity.
Defined.

(** ** The version guard *)

(** Neither the run up to the version guard nor the run after it looks at
    the interpreter version. *)
Lemma run_to_version_guard_indep (env : Env) (info : list Z) (text : string) :
  run_to (with_version env info text) VersionGuard = run_to env VersionGuard.
Proof. reflexivity. Qed.

Lemma main_from_install_primary_indep (env : Env) (info : list Z) (text : string) :
  main_from (with_version env info text) InstallPrimary =
  main_from env InstallPrimary.
Proof. reflexivity. Qed.

(** C9.  Take any run that reaches the version guard and put any interpreter
    version in its place.  The guard prints its two warning lines when the
    version is below 3.10 and nothing otherwise; then the program goes on
    with the primary installer from the very state in which the guard was
    entered, so the rest of the run, its final state and its result (hence
    the exit status) are those of the run from the installer on, whatever
    the version; and the first command of the installer is invoked. *)
Theorem version_guard_never_blocks (env : Env) (st : State)
    (st1 : State) (t1 : list Event) (info : list Z) (text : string) :
  run_to env VersionGuard st = (Ret tt, st1, t1) ->
  let env' := with_version env info text in
  version_warning env' =
    (if tuple_lt info [3; 10]%Z
     then ["⚠️  Warning: Python 3.10+ is recommended";
           "Current version: " +:+ text]
     else []) /\
  version_guard env' st1 = (Ret tt, st1, map EvPrint (version_warning env')) /\
  main env' st =
    match main_from env InstallPrimary st1 with
    | (r, st2, t2) => (r, st2, t1 ++ map EvPrint (version_warning env') ++ t2)
    end /\
  result (main env' st) = result (main_from env InstallPrimary st1) /\
  In (EvRun (pip_upgrade_command env)) (trace (main env' st)).
Proof.
  intros Hrun env'.
  assert (Hmain : main env' st =
            match main_from env InstallPrimary st1 with
            | (r, st2, t2) =>
                (r, st2, t1 ++ map EvPrint (version_warning env') ++ t2)
            end).
  { rewrite (main_reaching env' VersionGuard st st1 t1)
      by (rewrite <- Hrun; reflexivity).
    rewrite main_from_version_guard.
    change (main_from env' InstallPrimary) with (main_from env InstallPrimary).
    destruct (main_from env InstallPrimary st1) as [[r st2] t2]. reflexivity. }
  split; [reflexivity|]. split; [apply version_guard_spec|].
  split; [exact Hmain|]. rewrite Hmain.
  pose proof (install_primary_runs env st1) as Hin.
  destruct (main_from env InstallPrimary st1) as [[r st2] t2].
  split; [reflexivity|]. cbn [trace snd] in *. rewrite !in_app_iff. auto.
Qed.

(** The theorem at work: Python 3.9 in a virtual environment where all is
    installed; the run ends normally. *)
Lemma version_guard_never_blocks_witness :
  version_warning (with_version env_all_fine [3; 9; 18]%Z "3.9.18") =
    ["⚠️  Warning: Python 3.10+ is recommended"; "Current version: 3.9.18"] /\
  result (main (with_version env_all_fine [3; 9; 18]%Z "3.9.18") (empty_dir []))
    = Ret tt /\
  In (EvRun (pip_upgrade_command env_all_fine))
    (trace (main (with_version env_all_fine [3; 9; 18]%Z "3.9.18")
              (empty_dir []))).
Proof.
  destruct (version_guard_never_blocks env_all_fine (empty_dir [])
              (empty_dir []) (map EvPrint preamble_lines)
              [3; 9; 18]%Z "3.9.18" eq_refl)
    as (Hwarn & _ & _ & Hres & Hin).
  split; [exact Hwarn|]. split; [|exact Hin].
  rewrite Hres. vm_compute. reflexivity.
Defined.

(** ** Standard input *)

Lemma prompts_app (t1 t2 : list Event) :
  prompts (t1 ++ t2) = prompts t1 ++ prompts t2.
Proof.
  induction t1 as [|[l|p|c|p c|p|n|c] t1 IH]; cbn; rewrite ?IH; reflexivity.
Qed.

Lemma silent_ret {A} (a : A) : silent (mret a).
Proof. intros st. split; reflexivity. Qed.

Lemma silent_bind {A B} (m : M A) (f : A -> M B) :
  silent m -> (forall a, silent (f a)) -> silent (m ≫= f).
Proof.
  intros Hm Hf st. rewrite bind_run. specialize (Hm st).
  destruct (m st) as [[[a|e] st1] t1]; cbn in Hm; [|exact Hm].
  specialize (Hf a st1). destruct (f a st1) as [[r st2] t2]. cbn in Hf |- *.
  destruct Hm as [Hp1 Hs1], Hf as [Hp2 Hs2].
  rewrite prompts_app, Hp1, Hp2. split; [reflexivity|congruence].
Qed.

Lemma silent_try_except {A} (body : M A) (handler : PyExn -> option (M A)) :
  silent body ->
  (forall e h, handler e = Some h -> silent h) ->
  silent (try_except body handler).
Proof.
  intros Hb Hh st. unfold try_except. specialize (Hb st).
  destruct (body st) as [[[a|e] st1] t1]; cbn in Hb; [exact Hb|].
  destruct (handler e) as [h|] eqn:He; [|exact Hb].
  specialize (Hh e h He st1). destruct (h st1) as [[r st2] t2]. cbn in Hh |- *.
  destruct Hb as [Hp1 Hs1], Hh as [Hp2 Hs2].
  rewrite prompts_app, Hp1, Hp2. split; [reflexivity|congruence].
Qed.

Lemma silent_print (line : string) : silent (print line).
Proof. intros st. split; reflexivity. Qed.

Lemma silent_sys_exit {A} (code : Z) : silent (@sys_exit A code).
Proof. intros st. split; reflexivity. Qed.

Lemma silent_open_write (path content : string) :
  silent (open_write path content).
Proof. intros st. split; reflexivity. Qed.

Lemma silent_os_path_exists (path : string) : silent (os_path_exists path).
Proof. intros st. split; reflexivity. Qed.

Lemma silent_os_remove (path : string) : silent (os_remove path).
Proof.
  intros st. unfold os_remove. destruct (fs st !! path); split; reflexivity.
Qed.

Lemma silent_when (b : bool) (m : M unit) : silent m -> silent (when b m).
Proof. intros Hm. destruct b; [exact Hm|apply silent_ret]. Qed.

Lemma silent_subprocess_run (env : Env) (command : list string) :
  silent (subprocess_run env command).
Proof.
  intros st. unfold subprocess_run.
  destruct (subprocess env command (fs st)) as [rc out err files|f];
    [destruct (rc =? 0)%Z|]; split; reflexivity.
Qed.

Create HintDb silent.
#[local] Hint Resolve silent_ret silent_print silent_sys_exit silent_open_write
  silent_os_path_exists silent_os_remove silent_when silent_subprocess_run
  : silent.

(** Closes [silent m] for a program [m] built from the operations above. *)
Ltac silent_program :=
  repeat first
    [ progress auto with silent
    | apply silent_bind; [|intros ?]
    | apply silent_try_except; [|intros [] ? [= <-]]
    | match goal with
      | |- silent (if ?b then _ else _) => destruct b
      | |- silent (match ?s with EnvGuard => _ | _ => _ end) => destruct s
      end ].

Lemma silent_run_command (env : Env) (command : list string)
    (description : string) :
  silent (run_command env command description).
Proof. unfold run_command. silent_program. Qed.

#[local] Hint Resolve silent_run_command : silent.

Lemma silent_step_call (env : Env) (s : Step) : silent (step_call env s).
Proof.
  destruct s; cbn [step_call];
    unfold install_python_packages, check_r_installation, install_r_packages,
      verify_installation;
    silent_program.
Qed.

Lemma silent_abort (s : Step) : silent (abort s).
Proof. destruct s; cbn [abort]; silent_program. Qed.

#[local] Hint Resolve silent_step_call silent_abort : silent.

Lemma silent_gated (step : M bool) (on_failure rest : M unit) :
  silent step -> silent on_failure -> silent rest ->
  silent (gated step on_failure rest).
Proof. intros. unfold gated. silent_program. Qed.

(** From the version guard on, the program never reads standard input. *)
Lemma silent_main_from (env : Env) (s : Step) :
  s <> EnvGuard -> silent (main_from env s).
Proof.
  assert (silent epilogue) by (unfold epilogue; silent_program).
  assert (silent (version_guard env)) by (unfold version_guard; silent_program).
  assert (H5 : silent (main_from env Verify))
    by (apply silent_gated; auto with silent).
  assert (H4 : silent (main_from env InstallSecondary))
    by (apply silent_gated; auto with silent).
  assert (H3 : silent (main_from env CheckSecondaryRuntime))
    by (apply silent_gated; auto with silent).
  assert (H2 : silent (main_from env InstallPrimary))
    by (apply silent_gated; auto with silent).
  assert (H1 : silent (main_from env VersionGuard))
    by (apply (silent_bind (version_guard env)); auto).
  intros Hs. destruct s; (congruence || assumption).
Qed.

Section AllFine.

Context (env : Env).
Hypothesis all_fine : forall command files,
  succeeded (subprocess env command files) = true.

Ltac use_all_fine command files :=
  let H := fresh "Hok" in
  pose proof (all_fine command files) as H;
  destruct (subprocess env command files) as [? ? ? ?|?];
  [cbn [succeeded] in H; try rewrite H|discriminate H].

Lemma step_call_passes (s : Step) (st : State) :
  is_call s = true ->
  exists st' t, step_call env s st = (Ret true, st', t).
Proof.
  destruct s; try discriminate; intros _; cbn [step_call].
  - rewrite install_python_packages_spec. cbn zeta.
    use_all_fine (pip_upgrade_command env) (fs st).
    match goal with
    | |- context [subprocess env ?c ?f] => use_all_fine c f
    end.
    eauto.
  - rewrite check_r_installation_spec. cbn zeta.
    use_all_fine r_version_command (fs st). eauto.
  - rewrite install_r_packages_spec. cbn zeta.
    match goal with
    | |- context [subprocess env ?c ?f] => use_all_fine c f
    end.
    eauto.
  - rewrite verify_installation_spec. cbn zeta.
    match goal with
    | |- context [subprocess env ?c ?f] => use_all_fine c f
    end.
    eauto.
Qed.

(** When every command succeeds, the run from the primary installer on goes
    through the four steps and returns. *)
Lemma main_from_install_primary_all_fine (st : State) :
  result (main_from env InstallPrimary st) = Ret tt /\
  commands_run (trace (main_from env InstallPrimary st)) =
    commands_through env Verify.
Proof.
  destruct (step_call_passes InstallPrimary st eq_refl) as (st1 & t1 & H1).
  destruct (step_call_passes CheckSecondaryRuntime st1 eq_refl)
    as (st2 & t2 & H2).
  destruct (step_call_passes InstallSecondary st2 eq_refl) as (st3 & t3 & H3).
  destruct (step_call_passes Verify st3 eq_refl) as (st4 & t4 & H4).
  rewrite (main_from_passed env InstallPrimary CheckSecondaryRuntime
             _ _ _ eq_refl eq_refl H1).
  rewrite (main_from_passed env CheckSecondaryRuntime InstallSecondary
             _ _ _ eq_refl eq_refl H2).
  rewrite (main_from_passed env InstallSecondary Verify
             _ _ _ eq_refl eq_refl H3).
  cbn [main_from]. rewrite gated_spec by reflexivity.
  rewrite H4, epilogue_spec.
  split; [reflexivity|]. cbn [trace snd].
  rewrite !commands_run_app, commands_run_prints.
  rewrite (step_call_commands env InstallPrimary _ _ _ _ eq_refl H1).
  rewrite (step_call_commands env CheckSecondaryRuntime _ _ _ _ eq_refl H2).
  rewrite (step_call_commands env InstallSecondary _ _ _ _ eq_refl H3).
  rewrite (step_call_commands env Verify _ _ _ _ eq_refl H4).
  reflexivity.
Qed.

End AllFine.

(** C10.  In a virtual environment the program never reads standard input:
    no prompt appears in the run and the pending input is left as it was.
    When in addition every command succeeds, the run goes through all steps
    (the five commands, in order) and returns normally. *)
Theorem isolated_run_reads_no_input (env : Env) (st : State) :
  check_virtual_env env = true ->
  prompts (trace (main env st)) = [] /\
  stdin (final (main env st)) = stdin st /\
  ((forall command files, succeeded (subprocess env command files) = true) ->
   result (main env st) = Ret tt /\
   commands_run (trace (main env st)) = commands_through env Verify).
Proof.
  intros Hvenv.
  assert (Hrun : run_to env VersionGuard st =
                 (Ret tt, st, map EvPrint preamble_lines)).
  { change (run_to env VersionGuard) with (preamble;; env_guard env).
    rewrite bind_run, preamble_spec, env_guard_spec, Hvenv. reflexivity. }
  rewrite (main_reaching env VersionGuard _ _ _ Hrun).
  destruct (silent_main_from env VersionGuard ltac:(discriminate) st)
    as [Hprompts Hstdin].
  rewrite main_from_version_guard in *.
  pose proof (main_from_install_primary_all_fine env) as Hfine.
  destruct (main_from env InstallPrimary st) as [[r st2] t2] eqn:Hfrom.
  cbn [trace final result fst snd] in *.
  split; [|split].
  - rewrite prompts_app. rewrite Hprompts. reflexivity.
  - exact Hstdin.
  - intros Hall. specialize (Hfine Hall st). rewrite Hfrom in Hfine.
    cbn [trace result fst snd] in Hfine. destruct Hfine as [-> Hcmds].
    split; [reflexivity|].
    now rewrite !commands_run_app, !commands_run_prints, Hcmds.
Qed.

(** The theorem at work: a virtual environment where all is installed, and
    an operator who has typed ahead. *)
Lemma isolated_run_reads_no_input_witness :
  prompts (trace (main env_all_fine (empty_dir ["n"]))) = [] /\
  stdin (final (main env_all_fine (empty_dir ["n"]))) = ["n"] /\
  result (main env_all_fine (empty_dir ["n"])) = Ret tt /\
  commands_run (trace (main env_all_fine (empty_dir ["n"]))) =
    commands_through env_all_fine Verify.
Proof.
  destruct (isolated_run_reads_no_input env_all_fine (empty_dir ["n"]) eq_refl)
    as (Hp & Hs & Hall).
  split; [exact Hp|]. split; [exact Hs|].
  apply Hall. intros command files. reflexivity.
Defined.

(** ** The temporary script files *)

(** C6.  Whenever [install_r_packages] returns, [install_r_packages.R] is
    not in the working directory, and whenever [verify_installation]
    returns, [verify_installation.py] is not.  Both functions do return, with
    the success of the script as their result, whenever the script could be
    started: whether it then exits with status 0 or with another status,
    and whatever it did to the working directory. *)
Theorem temporary_script_removed (env : Env) (st : State) :
  (forall b st' t,
     install_r_packages env st = (Ret b, st', t) ->
     fs st' !! "install_r_packages.R" = None) /\
  (forall b st' t,
     verify_installation env st = (Ret b, st', t) ->
     fs st' !! "verify_installation.py" = None) /\
  (forall returncode stdout stderr files,
     subprocess env rscript_command
       (<["install_r_packages.R" := r_script]> (fs st))
     = Exited returncode stdout stderr files ->
     result (install_r_packages env st) = Ret (returncode =? 0)%Z /\
     fs (final (install_r_packages env st)) !! "install_r_packages.R" = None) /\
  (forall returncode stdout stderr files,
     subprocess env (verify_command env)
       (<["verify_installation.py" := test_script]> (fs st))
     = Exited returncode stdout stderr files ->
     result (verify_installation env st) = Ret (returncode =? 0)%Z /\
     fs (final (verify_installation env st)) !! "verify_installation.py" = None).
Proof.
  repeat split.
  - intros b st' t. rewrite install_r_packages_spec. cbn zeta.
    destruct (subprocess env rscript_command _) as [rc out err files|f];
      [|discriminate].
    intros [= _ <- _]. apply lookup_delete_eq.
  - intros b st' t. rewrite verify_installation_spec. cbn zeta.
    destruct (subprocess env (verify_command env) _) as [rc out err files|f];
      [|discriminate].
    intros [= _ <- _]. apply lookup_delete_eq.
  - rewrite install_r_packages_spec. cbn zeta. rewrite H. reflexivity.
  - rewrite install_r_packages_spec. cbn zeta. rewrite H.
    apply lookup_delete_eq.
  - rewrite verify_installation_spec. cbn zeta. rewrite H. reflexivity.
  - rewrite verify_installation_spec. cbn zeta. rewrite H.
    apply lookup_delete_eq.
Qed.

(** The theorem at work: the generated R script exits with status 1. *)
Lemma temporary_script_removed_witness :
  result (install_r_packages env_rscript_fails (empty_dir [])) = Ret false /\
  fs (final (install_r_packages env_rscript_fails (empty_dir [])))
    !! "install_r_packages.R" = None.
Proof.
  destruct (temporary_script_removed env_rscript_fails (empty_dir []))
    as (_ & _ & Hr & _).
  exact (Hr 1%Z "" "Error in library(pkg)" _ eq_refl).
Defined.

(** ** Where the code departs from its contract *)

(** [install_python_packages] drops the results of both [run_command] calls:
    whenever it returns, it returns [True]. *)
Lemma install_python_packages_returns_true (env : Env) (st : State) b st' t :
  install_python_packages env st = (Ret b, st', t) -> b = true.
Proof.
  rewrite install_python_packages_spec. cbn zeta.
  destruct (subprocess env (pip_upgrade_command env) (fs st))
    as [rc1 out1 err1 files1|f1]; [|discriminate].
  destruct (subprocess env (pip_requirements_command env) files1)
    as [rc2 out2 err2 files2|f2]; [|discriminate].
  now intros [= <- _ _].
Qed.

(** C1, on a manifest with an invalid entry.  [pip install -r
    requirements.txt] exits with status 1 and [run_command] reports it, but
    [install_python_packages] returns [True]: the orchestrator does not stop,
    runs the secondary-runtime check and the steps after it, and the program
    ends with exit status 0. *)
Theorem bad_manifest_goes_unnoticed :
  subprocess env_bad_manifest (pip_requirements_command env_bad_manifest) ∅ =
    Exited 1 ""
      "ERROR: Invalid requirement: '=broken' (from line 1 of requirements.txt)"
      ∅ /\
  result (run_command env_bad_manifest
            (pip_requirements_command env_bad_manifest)
            "Installing Python packages" (empty_dir [])) = Ret false /\
  result (install_python_packages env_bad_manifest (empty_dir [])) = Ret true /\
  commands_run (trace (main env_bad_manifest (empty_dir []))) =
    [pip_upgrade_command env_bad_manifest;
     pip_requirements_command env_bad_manifest;
     r_version_command; rscript_command; verify_command env_bad_manifest] /\
  exit_code (result (main env_bad_manifest (empty_dir []))) = 0%Z.
Proof. vm_compute. repeat split. Qed.

(** C2, when [R] is not on the search path.  [subprocess.run] raises
    [FileNotFoundError]; [run_command] catches [CalledProcessError] only, so
    the exception leaves it and no boolean is returned. *)
Theorem missing_executable_escapes_run_command :
  subprocess env_r_absent r_version_command ∅ = NotFound "R" /\
  run_command env_r_absent r_version_command "Checking R version"
    (empty_dir []) =
  (Raise (FileNotFoundError "R"), empty_dir [],
   [EvPrint (nl +:+ "Checking R version...");
    EvPrint "Running: R --version";
    EvRun ["R"; "--version"]]).
Proof. split; reflexivity. Qed.

(** C3, when [R] is not on the search path, in a virtual environment with
    the primary packages installed.  The exception of [run_command] goes
    through [check_r_installation] and [main]: the interpreter ends the
    program with status 1, and the console stops at the line that announces
    the command.  None of the three installation instructions is printed. *)
Theorem missing_r_prints_no_guidance :
  result (main env_r_absent (empty_dir [])) = Raise (FileNotFoundError "R") /\
  exit_code (result (main env_r_absent (empty_dir []))) = 1%Z /\
  printed (trace (main env_r_absent (empty_dir []))) =
    ["🚀 Setting up Longitudinal Analysis Environment";
     str_mul "=" 50;
     nl +:+ "=== Installing Python Packages ===";
     nl +:+ "Upgrading pip...";
     "Running: /work/venv/bin/python -m pip install --upgrade pip";
     "✓ Success";
     nl +:+ "Installing Python packages...";
     "Running: /work/venv/bin/python -m pip install -r requirements.txt";
     "✓ Success";
     nl +:+ "=== Checking R Installation ===";
     nl +:+ "Checking R version...";
     "Running: R --version"] /\
  Forall (fun line => line ∉ printed (trace (main env_r_absent (empty_dir []))))
    r_install_guidance.
Proof.
  split; [reflexivity|]. split; [reflexivity|]. split; [reflexivity|].
  apply (bool_decide_unpack _). vm_compute. exact I.
Qed.

(** Had [R --version] started and failed, the guidance would be there: the
    instructions are printed on a non-zero exit status only. *)
Example broken_r_prints_guidance :
  exit_code (result (main env_r_broken (empty_dir []))) = 1%Z /\
  Forall (fun line => line ∈ printed (trace (main env_r_broken (empty_dir []))))
    r_install_guidance.
Proof.
  split; [reflexivity|].
  apply (bool_decide_unpack _). vm_compute. exact I.
Qed.

(** ** The generated R script *)

Lemma is_installed_In (installed : list string) (pkg : string) :
  RScript.is_installed installed pkg = true <-> In pkg installed.
Proof.
  unfold RScript.is_installed. rewrite existsb_exists. split.
  - intros (x & Hx & Heq). apply String.eqb_eq in Heq. now subst.
  - intros Hin. exists pkg. split; [exact Hin|apply String.eqb_refl].
Qed.

(** The vector of missing packages is the difference of the two lists. *)
Lemma missing_packages_spec (packages installed : list string) (pkg : string) :
  In pkg (RScript.missing_packages packages installed) <->
  In pkg packages /\ ~ In pkg installed.
Proof.
  unfold RScript.missing_packages. rewrite filter_In, negb_true_iff.
  pose proof (is_installed_In installed pkg) as Hin.
  destruct (RScript.is_installed installed pkg); split; intros [Hp Hn];
    split; try assumption; try discriminate.
  - destruct Hn. now apply Hin.
  - intros Hi. apply Hin in Hi. discriminate.
  - reflexivity.
Qed.

Lemma missing_packages_none (packages installed : list string) :
  (forall pkg, In pkg packages -> In pkg installed) ->
  RScript.missing_packages packages installed = [].
Proof.
  intros Hall.
  destruct (RScript.missing_packages packages installed) as [|pkg rest] eqn:Hm;
    [reflexivity|].
  assert (Hin : In pkg (RScript.missing_packages packages installed))
    by (rewrite Hm; left; reflexivity).
  apply missing_packages_spec in Hin as [Hp Hn]. destruct Hn. auto.
Qed.

(** The loading loop installs nothing. *)
Lemma load_packages_installs (installed packages : list string) :
  RScript.installs (RScript.load_packages installed packages).2 = [].
Proof.
  induction packages as [|pkg rest IH]; cbn; [reflexivity|].
  destruct (RScript.is_installed installed pkg); [|reflexivity].
  destruct (RScript.load_packages installed rest) as [status t]. exact IH.
Qed.


(** When every package of the vector is installed, each one is loaded and
    reported, in order. *)
Lemma load_packages_all (installed packages : list string) :
  (forall pkg, In pkg packages -> In pkg installed) ->
  RScript.load_packages installed packages =
  (RScript.Completed,
   flat_map (fun pkg =>
               [RScript.Library pkg;
                RScript.cat ["✓"; pkg; "loaded successfully" +:+ nl]])
     packages).
Proof.
  induction packages as [|pkg rest IH]; intros Hall; [reflexivity|].
  cbn [RScript.load_packages flat_map].
  assert (Hpkg : RScript.is_installed installed pkg = true)
    by (apply is_installed_In, Hall; left; reflexivity).
  rewrite Hpkg, IH by (intros p Hp; apply Hall; right; exact Hp).
  reflexivity.
Qed.



(** The script, with the two branches of its [if] told apart by whether a
    package is missing. *)
Lemma script_spec (install : list string -> list string -> list string)
    (packages installed : list string) :
  let missing := RScript.missing_packages packages installed in
  RScript.script install packages installed =
  match missing with
  | [] =>
      match RScript.load_packages installed packages with
      | (status, t2) =>
          (status, installed,
           RScript.cat ["All R packages are already installed" +:+ nl]
           :: RScript.cat ["Loading packages to verify installation..." +:+ nl]
           :: t2)
      end
  | _ :: _ =>
      match RScript.load_packages (install missing installed) packages with
      | (status, t2) =>
          (status, install missing installed,
           RScript.cat ["Installing missing packages:"; join ", " missing; nl]
           :: RScript.InstallPackages missing "https://cran.r-project.org/"
           :: RScript.cat ["Loading packages to verify installation..." +:+ nl]
           :: t2)
      end
  end.
Proof.
  cbn zeta. unfold RScript.script.
  destruct (RScript.missing_packages packages installed) as [|pkg rest];
    reflexivity.
Qed.





(** ** The generated validation script *)

Section ValidationScript.

Import VerifyScript.

Context (w : World).

Lemma check_python_package_spec (pkg : string) (st : State) :
  check_python_package w pkg st =
  match import_module w pkg with
  | None => (Ret tt, st, [EvImport pkg; EvPrint ("✓ " +:+ pkg)])
  | Some (ImportError msg) =>
      (Raise (SystemExit 1), st,
       [EvImport pkg;
        EvPrint ("✗ " +:+ pkg +:+ ": " +:+ render w (ImportError msg))])
  | Some e => (Raise e, st, [EvImport pkg])
  end.
Proof.
  unfold check_python_package, try_except, import.
  rewrite bind_run.
  destruct (import_module w pkg) as [[]|]; reflexivity.
Qed.

(** The first loop over packages that all import. *)
Lemma python_loop_passes (pkgs : list string) (st : State) :
  (forall pkg, In pkg pkgs -> import_module w pkg = None) ->
  for_each pkgs (check_python_package w) st = (Ret tt, st, checked pkgs).
Proof.
  induction pkgs as [|pkg rest IH]; intros Hall; [reflexivity|].
  cbn [for_each]. rewrite bind_run, check_python_package_spec.
  rewrite (Hall pkg) by (left; reflexivity).
  rewrite IH by (intros p Hp; apply Hall; right; exact Hp).
  reflexivity.
Qed.







End ValidationScript.



(** * Further properties of the program *)

(** ** The command runner and the step functions *)

Lemma prompts_prints (ls : list string) : prompts (map EvPrint ls) = [].
Proof. induction ls as [|l ls IH]; [reflexivity|exact IH]. Qed.

Lemma files_written_report (env : Env) (o : Outcome) (command : list string) :
  files_written (run_command_report env o command) = [].
Proof.
  destruct o as [rc out err files|f]; cbn; [|reflexivity].
  destruct (rc =? 0)%Z; [destruct (truthy out)|destruct (truthy err)];
    reflexivity.
Qed.

(** [run_command] hands the command to [subprocess.run] exactly once and
    writes no file itself.  It returns a boolean exactly when the command
    could be started, and the boolean says whether the exit status was 0;
    the working directory is then as the command left it. *)
Theorem run_command_result (env : Env) (command : list string)
    (description : string) (st : State) :
  let run := run_command env command description st in
  commands_run (trace run) = [command] /\
  files_written (trace run) = [] /\
  (forall b,
     result run = Ret b <->
     exists returncode stdout stderr files,
       subprocess env command (fs st) = Exited returncode stdout stderr files /\
       b = (returncode =? 0)%Z /\
       fs (final run) = files).
Proof.
  cbn zeta. rewrite run_command_spec. cbn zeta.
  destruct (subprocess env command (fs st)) as [rc out err files|f] eqn:Ho;
    cbn [trace result final fst snd].
  - split; [apply commands_run_events|]. split.
    + unfold run_command_events. rewrite files_written_app, files_written_report.
      reflexivity.
    + intros b. split.
      * intros [= <-]. now exists rc, out, err, files.
      * intros (rc' & out' & err' & files' & [= -> _ _ _] & -> & _).
        reflexivity.
  - split; [apply commands_run_events|]. split; [reflexivity|].
    intros b. split; [discriminate|].
    intros (rc' & out' & err' & files' & Hne & _). discriminate.
Qed.

(** A failed upgrade of pip does not stop the primary installer: whenever
    [pip install --upgrade pip] could be started, whatever its exit status,
    the requirements are installed next, on the files the upgrade left. *)
Theorem pip_upgrade_failure_is_ignored (env : Env) (st : State)
    (returncode : Z) (stdout stderr : string) (files : gmap string string) :
  subprocess env (pip_upgrade_command env) (fs st)
    = Exited returncode stdout stderr files ->
  let run := install_python_packages env st in
  commands_run (trace run) =
    [pip_upgrade_command env; pip_requirements_command env] /\
  match subprocess env (pip_requirements_command env) files with
  | Exited _ _ _ files2 => result run = Ret true /\ fs (final run) = files2
  | NotFound filename =>
      result run = Raise (FileNotFoundError filename) /\ fs (final run) = files
  end.
Proof.
  intros Hup. cbn zeta. rewrite install_python_packages_spec. cbn zeta.
  rewrite Hup.
  destruct (subprocess env (pip_requirements_command env) files)
    as [rc2 out2 err2 files2|f2]; cbn [trace result final fst snd fs];
    rewrite commands_run_app, commands_run_print, !commands_run_events;
    repeat split.
Qed.

Lemma pip_upgrade_failure_is_ignored_witness :
  commands_run (trace (install_python_packages env_upgrade_fails (empty_dir []))) =
    [pip_upgrade_command env_upgrade_fails;
     pip_requirements_command env_upgrade_fails] /\
  result (install_python_packages env_upgrade_fails (empty_dir [])) = Ret true /\
  fs (final (install_python_packages env_upgrade_fails (empty_dir []))) = ∅.
Proof.
  exact (pip_upgrade_failure_is_ignored env_upgrade_fails (empty_dir [])
           1%Z "" "ERROR: No matching distribution" ∅ eq_refl).
Defined.

(** When [R --version] can be started but exits with a non-zero status, the
    secondary-runtime check does what it is written for: the program ends
    with exit status 1, its last console lines are the warning, the three
    installation instructions and the banner, and nothing is invoked after
    [R --version]. *)
Theorem broken_r_gets_guidance (env : Env) (st st1 : State) (t1 : list Event)
    (returncode : Z) (stdout stderr : string) (files : gmap string string) :
  run_to env CheckSecondaryRuntime st = (Ret tt, st1, t1) ->
  subprocess env r_version_command (fs st1)
    = Exited returncode stdout stderr files ->
  returncode <> 0%Z ->
  exit_code (result (main env st)) = 1%Z /\
  commands_run (trace (main env st)) =
    [pip_upgrade_command env; pip_requirements_command env; r_version_command] /\
  exists t,
    trace (main env st) =
    t ++ map EvPrint
           ([nl +:+ "⚠️  R is not installed or not in PATH";
             "Please install R first:"]
            ++ r_install_guidance ++ ["❌ R installation required"]).
Proof.
  intros Hrun Ho Hrc.
  assert (Hcall : step_call env CheckSecondaryRuntime st1 =
            (Ret false, {| fs := files; stdin := stdin st1 |},
             (EvPrint (nl +:+ "=== Checking R Installation ===")
              :: run_command_events env (Exited returncode stdout stderr files)
                   r_version_command "Checking R version")
             ++ EvPrint (nl +:+ "⚠️  R is not installed or not in PATH")
                :: EvPrint "Please install R first:"
                :: map EvPrint r_install_guidance)).
  { cbn [step_call]. rewrite check_r_installation_spec. cbn zeta. rewrite Ho.
    apply Z.eqb_neq in Hrc. rewrite Hrc. reflexivity. }
  rewrite (main_reaching env _ _ _ _ Hrun).
  rewrite (main_from_failed env CheckSecondaryRuntime _ _ _ eq_refl Hcall).
  cbn [result trace fst snd]. split; [reflexivity|]. split.
  - rewrite !commands_run_app, (run_to_commands env _ _ _ _ Hrun).
    rewrite commands_run_print, commands_run_events. reflexivity.
  - exists (t1 ++ EvPrint (nl +:+ "=== Checking R Installation ===")
                  :: run_command_events env
                       (Exited returncode stdout stderr files)
                       r_version_command "Checking R version").
    rewrite <- !app_assoc. reflexivity.
Qed.

Lemma broken_r_gets_guidance_witness :
  exit_code (result (main env_r_broken (empty_dir []))) = 1%Z /\
  commands_run (trace (main env_r_broken (empty_dir []))) =
    [pip_upgrade_command env_r_broken; pip_requirements_command env_r_broken;
     r_version_command] /\
  exists t,
    trace (main env_r_broken (empty_dir [])) =
    t ++ map EvPrint
           ([nl +:+ "⚠️  R is not installed or not in PATH";
             "Please install R first:"]
            ++ r_install_guidance ++ ["❌ R installation required"]).
Proof.
  apply (broken_r_gets_guidance env_r_broken (empty_dir [])
           (final (run_to env_r_broken CheckSecondaryRuntime (empty_dir [])))
           (trace (run_to env_r_broken CheckSecondaryRuntime (empty_dir [])))
           2%Z "" "R: cannot open shared object file" ∅).
  - vm_compute. reflexivity.
  - vm_compute. reflexivity.
  - discriminate.
Defined.

(** ** The temporary files *)

(** The two script-running steps touch no file but their own: once the
    script has been started and has exited, every other file of the working
    directory is as the script left it.  A file that already had the name of
    the temporary script is overwritten and then removed with it. *)
Theorem temporary_script_frame (env : Env) (st : State) :
  (forall returncode stdout stderr files,
     subprocess env rscript_command
       (<["install_r_packages.R" := r_script]> (fs st))
     = Exited returncode stdout stderr files ->
     fs (final (install_r_packages env st))
       = delete "install_r_packages.R" files /\
     forall path, path <> "install_r_packages.R" ->
       fs (final (install_r_packages env st)) !! path = files !! path) /\
  (forall returncode stdout stderr files,
     subprocess env (verify_command env)
       (<["verify_installation.py" := test_script]> (fs st))
     = Exited returncode stdout stderr files ->
     fs (final (verify_installation env st))
       = delete "verify_installation.py" files /\
     forall path, path <> "verify_installation.py" ->
       fs (final (verify_installation env st)) !! path = files !! path).
Proof.
  split; intros rc out err files Ho.
  - rewrite install_r_packages_spec. cbn zeta. rewrite Ho.
    split; [reflexivity|]. intros path Hpath.
    cbn [final fst snd fs]. now rewrite lookup_delete_ne.
  - rewrite verify_installation_spec. cbn zeta. rewrite Ho.
    split; [reflexivity|]. intros path Hpath.
    cbn [final fst snd fs]. now rewrite lookup_delete_ne.
Qed.

(** The theorem at work: the operator's own [install_r_packages.R] does not
    survive the step. *)
Lemma temporary_script_frame_witness :
  fs dir_with_notes !! "install_r_packages.R" = Some "# my own notes" /\
  fs (final (install_r_packages env_all_fine dir_with_notes)) = ∅.
Proof.
  split; [reflexivity|].
  destruct (temporary_script_frame env_all_fine dir_with_notes) as [Hr _].
  destruct (Hr 0%Z "" "" _ eq_refl) as [Hfs _].
  rewrite Hfs. apply map_eq. intros path.
  destruct (decide (path = "install_r_packages.R")) as [->|Hne].
  - rewrite lookup_delete_eq. reflexivity.
  - rewrite lookup_delete_ne, lookup_insert_ne by congruence.
    unfold dir_with_notes. cbn [fs].
    rewrite lookup_singleton_ne by congruence. reflexivity.
Defined.

(** When the interpreter of the generated script cannot be started, the
    clean-up is not reached: the exception leaves the step and the temporary
    file stays in the working directory with the script in it. *)
Theorem temporary_script_left_behind (env : Env) (st : State) :
  (forall filename,
     subprocess env rscript_command
       (<["install_r_packages.R" := r_script]> (fs st)) = NotFound filename ->
     result (install_r_packages env st) = Raise (FileNotFoundError filename) /\
     fs (final (install_r_packages env st)) !! "install_r_packages.R"
       = Some r_script) /\
  (forall filename,
     subprocess env (verify_command env)
       (<["verify_installation.py" := test_script]> (fs st)) = NotFound filename ->
     result (verify_installation env st) = Raise (FileNotFoundError filename) /\
     fs (final (verify_installation env st)) !! "verify_installation.py"
       = Some test_script).
Proof.
  split; intros filename Ho.
  - rewrite install_r_packages_spec. cbn zeta. rewrite Ho.
    split; [reflexivity|]. apply lookup_insert_eq.
  - rewrite verify_installation_spec. cbn zeta. rewrite Ho.
    split; [reflexivity|]. apply lookup_insert_eq.
Qed.

Lemma temporary_script_left_behind_witness :
  result (install_r_packages env_rscript_absent (empty_dir []))
    = Raise (FileNotFoundError "Rscript") /\
  fs (final (install_r_packages env_rscript_absent (empty_dir [])))
    !! "install_r_packages.R" = Some r_script.
Proof.
  destruct (temporary_script_left_behind env_rscript_absent (empty_dir []))
    as [Hr _].
  exact (Hr "Rscript" eq_refl).
Defined.

(** ** The guards *)

Lemma main_from_start (env : Env) (st : State) :
  main env st =
  match main_from env EnvGuard st with
  | (r, st2, t2) => (r, st2, map EvPrint preamble_lines ++ t2)
  end.
Proof. apply main_reaching. reflexivity. Qed.

(** Outside a virtual environment, with standard input at its end, [input]
    raises [EOFError] and nothing catches it: the program ends with status 1
    right after the prompt, without the cancellation line and without having
    invoked anything. *)
Theorem prompt_at_end_of_input (env : Env) (st : State) :
  check_virtual_env env = false ->
  stdin st = [] ->
  main env st =
    (Raise EOFError, st,
     map EvPrint (preamble_lines ++ venv_warning) ++ [EvInput venv_prompt]) /\
  exit_code (result (main env st)) = 1%Z /\
  commands_run (trace (main env st)) = [].
Proof.
  intros Hvenv Hin.
  rewrite main_from_start, main_from_env_guard, env_guard_spec, Hvenv.
  cbn zeta. rewrite Hin. repeat split.
Qed.

Lemma prompt_at_end_of_input_witness :
  main env_system (empty_dir []) =
    (Raise EOFError, empty_dir [],
     map EvPrint (preamble_lines ++ venv_warning) ++ [EvInput venv_prompt]) /\
  exit_code (result (main env_system (empty_dir []))) = 1%Z /\
  commands_run (trace (main env_system (empty_dir []))) = [].
Proof.
  apply (prompt_at_end_of_input env_system (empty_dir [])); reflexivity.
Defined.

(** The program asks at most once, and only at the environment guard: the
    prompts of any run are the one confirmation prompt outside a virtual
    environment and none inside, and at most one line of standard input is
    consumed. *)
Theorem prompts_of_a_run (env : Env) (st : State) :
  prompts (trace (main env st)) =
    (if check_virtual_env env then [] else [venv_prompt]) /\
  (stdin (final (main env st)) = stdin st \/
   exists response, stdin st = response :: stdin (final (main env st))).
Proof.
  rewrite main_from_start, main_from_env_guard, env_guard_spec.
  assert (Hrest : forall st1,
            prompts (trace (main_from env VersionGuard st1)) = [] /\
            stdin (final (main_from env VersionGuard st1)) = stdin st1)
    by (intros st1; apply silent_main_from; discriminate).
  destruct (check_virtual_env env).
  - destruct (Hrest st) as [Hp Hs].
    destruct (main_from env VersionGuard st) as [[r st2] t2].
    cbn [trace final fst snd app] in *.
    rewrite prompts_app, prompts_prints, Hp. auto.
  - cbn zeta. destruct (stdin st) as [|response rest] eqn:Hin.
    + cbn [trace final fst snd]. rewrite prompts_app, prompts_prints.
      split; [reflexivity|]. left. exact Hin.
    + destruct (affirmative response).
      * destruct (Hrest {| fs := fs st; stdin := rest |}) as [Hp Hs].
        destruct (main_from env VersionGuard _) as [[r st2] t2].
        cbn [trace final fst snd stdin] in *.
        rewrite !prompts_app, prompts_prints, Hp, Hs.
        split; [reflexivity|]. right. now exists response.
      * cbn [trace final fst snd stdin].
        rewrite prompts_app, prompts_prints.
        split; [reflexivity|]. right. now exists response.
Qed.

(** The version warning depends on the major and the minor version only:
    it is printed exactly for the versions before 3.10, whatever the micro
    version. *)
Theorem version_threshold (env : Env) (major minor : Z) (rest : list Z) :
  version_info (sys env) = major :: minor :: rest ->
  (version_warning env <> [] <->
   (major < 3 \/ (major = 3 /\ minor < 10))%Z) /\
  (version_warning env = [] <->
   (3 < major \/ (major = 3 /\ 10 <= minor))%Z).
Proof.
  intros Hinfo.
  assert (Hlt : tuple_lt (major :: minor :: rest) [3; 10]%Z = true <->
                (major < 3 \/ (major = 3 /\ minor < 10))%Z).
  { cbn [tuple_lt].
    destruct (major <? 3)%Z eqn:H1; [apply Z.ltb_lt in H1; intuition lia|].
    apply Z.ltb_ge in H1.
    destruct (3 <? major)%Z eqn:H2;
      [apply Z.ltb_lt in H2; split; [discriminate|lia]|].
    apply Z.ltb_ge in H2.
    destruct (minor <? 10)%Z eqn:H3; [apply Z.ltb_lt in H3; intuition lia|].
    apply Z.ltb_ge in H3.
    destruct (10 <? minor)%Z; [split; [discriminate|lia]|].
    destruct rest; (split; [discriminate|lia]). }
  unfold version_warning. rewrite Hinfo.
  destruct (tuple_lt (major :: minor :: rest) [3; 10]%Z).
  - assert (major < 3 \/ (major = 3 /\ minor < 10))%Z by now apply Hlt.
    split; split; intros; try discriminate; try assumption; lia.
  - assert (~ (major < 3 \/ (major = 3 /\ minor < 10))%Z)
      by (intros H; apply Hlt in H; discriminate).
    split; split; intros; try congruence; try lia.
Qed.

Lemma version_threshold_witness :
  (version_warning (with_version env_all_fine [3; 9; 99]%Z "3.9.99") <> [] <->
   (3 < 3 \/ (3 = 3 /\ 9 < 10))%Z) /\
  (version_warning (with_version env_all_fine [3; 9; 99]%Z "3.9.99") = [] <->
   (3 < 3 \/ (3 = 3 /\ 10 <= 9))%Z).
Proof.
  exact (version_threshold (with_version env_all_fine [3; 9; 99]%Z "3.9.99")
           3 9 [99]%Z eq_refl).
Defined.

(** ** Exit codes *)

Lemma exits_within_weaken {A} (codes codes' : list Z) (m : M A) :
  (forall c, In c codes -> In c codes') ->
  exits_within codes m -> exits_within codes' m.
Proof. intros Hsub Hm st code Hr. eauto. Qed.

Lemma exits_within_ret {A} (codes : list Z) (a : A) : exits_within codes (mret a).
Proof. intros st code. discriminate. Qed.

Lemma exits_within_bind {A B} (codes : list Z) (m : M A) (f : A -> M B) :
  exits_within codes m -> (forall a, exits_within codes (f a)) ->
  exits_within codes (m ≫= f).
Proof.
  intros Hm Hf st code. rewrite bind_run. specialize (Hm st code).
  destruct (m st) as [[[a|e] st1] t1].
  - specialize (Hf a st1 code). destruct (f a st1) as [[r st2] t2]. exact Hf.
  - cbn in *. intros [= ->]. now apply Hm.
Qed.

Lemma exits_within_try_except {A} (codes : list Z) (body : M A)
    (handler : PyExn -> option (M A)) :
  exits_within codes body ->
  (forall e h, handler e = Some h -> exits_within codes h) ->
  exits_within codes (try_except body handler).
Proof.
  intros Hb Hh st code. unfold try_except. specialize (Hb st code).
  destruct (body st) as [[[a|e] st1] t1]; [exact Hb|].
  destruct (handler e) as [h|] eqn:He; [|exact Hb].
  specialize (Hh e h He st1 code). destruct (h st1) as [[r st2] t2]. exact Hh.
Qed.

Lemma exits_within_print (codes : list Z) (line : string) :
  exits_within codes (print line).
Proof. intros st code. discriminate. Qed.

Lemma exits_within_sys_exit {A} (codes : list Z) (code : Z) :
  In code codes -> exits_within codes (@sys_exit A code).
Proof. intros Hin st code' [= <-]. exact Hin. Qed.

Lemma exits_within_open_write (codes : list Z) (path content : string) :
  exits_within codes (open_write path content).
Proof. intros st code. discriminate. Qed.

Lemma exits_within_os_path_exists (codes : list Z) (path : string) :
  exits_within codes (os_path_exists path).
Proof. intros st code. discriminate. Qed.

Lemma exits_within_os_remove (codes : list Z) (path : string) :
  exits_within codes (os_remove path).
Proof.
  intros st code. unfold os_remove. destruct (fs st !! path); discriminate.
Qed.

Lemma exits_within_input (codes : list Z) (prompt : string) :
  exits_within codes (input prompt).
Proof. intros st code. unfold input. destruct (stdin st); discriminate. Qed.

Lemma exits_within_when (codes : list Z) (b : bool) (m : M unit) :
  exits_within codes m -> exits_within codes (when b m).
Proof. intros Hm. destruct b; [exact Hm|apply exits_within_ret]. Qed.

Lemma exits_within_subprocess_run (codes : list Z) (env : Env)
    (command : list string) :
  exits_within codes (subprocess_run env command).
Proof.
  intros st code. unfold subprocess_run.
  destruct (subprocess env command (fs st)) as [rc out err files|f];
    [destruct (rc =? 0)%Z|]; discriminate.
Qed.

Create HintDb exits.
#[local] Hint Resolve exits_within_ret exits_within_print exits_within_open_write
  exits_within_os_path_exists exits_within_os_remove exits_within_input
  exits_within_when exits_within_subprocess_run : exits.
#[local] Hint Extern 1 (exits_within _ (sys_exit _)) =>
  apply exits_within_sys_exit; cbn; tauto : exits.

(** Closes [exits_within codes m] for a program built from the operations
    above. *)
Ltac exits_program :=
  repeat first
    [ progress auto with exits
    | apply exits_within_bind; [|intros ?]
    | apply exits_within_try_except; [|intros [] ? [= <-]]
    | match goal with
      | |- exits_within _ (if ?b then _ else _) => destruct b
      end ].

(** No step function calls [sys.exit]. *)
Lemma exits_within_step_call (env : Env) (s : Step) :
  exits_within [] (step_call env s).
Proof.
  destruct s; cbn [step_call];
    unfold install_python_packages, check_r_installation, install_r_packages,
      verify_installation, run_command;
    exits_program.
Qed.

Lemma exits_within_abort (s : Step) : exits_within [1%Z] (abort s).
Proof. destruct s; cbn [abort]; exits_program. Qed.

Lemma exits_within_gated (codes : list Z) (step : M bool)
    (on_failure rest : M unit) :
  exits_within codes step -> exits_within codes on_failure ->
  exits_within codes rest ->
  exits_within codes (gated step on_failure rest).
Proof. intros. unfold gated. exits_program. Qed.

(** After the environment guard, the only exit code is 1. *)
Lemma exits_within_main_from (env : Env) (s : Step) :
  s <> EnvGuard -> exits_within [1%Z] (main_from env s).
Proof.
  assert (Hstep : forall s', exits_within [1%Z] (step_call env s'))
    by (intros s'; apply (exits_within_weaken []);
        [intros c []|apply exits_within_step_call]).
  assert (Hep : exits_within [1%Z] epilogue)
    by (unfold epilogue; exits_program).
  assert (H5 : exits_within [1%Z] (main_from env Verify))
    by (apply exits_within_gated; auto using exits_within_abort).
  assert (H4 : exits_within [1%Z] (main_from env InstallSecondary))
    by (apply exits_within_gated; auto using exits_within_abort).
  assert (H3 : exits_within [1%Z] (main_from env CheckSecondaryRuntime))
    by (apply exits_within_gated; auto using exits_within_abort).
  assert (H2 : exits_within [1%Z] (main_from env InstallPrimary))
    by (apply exits_within_gated; auto using exits_within_abort).
  assert (H1 : exits_within [1%Z] (main_from env VersionGuard)).
  { apply (exits_within_bind _ (version_guard env)); [|auto].
    unfold version_guard. exits_program. }
  intros Hs. destruct s; (congruence || assumption).
Qed.

(** The exit status of the program is 0 or 1, whatever the commands and the
    operator do.  Status 0 has two origins only: [main] returned, or the
    operator declined at the environment guard, and then nothing was
    invoked. *)
Theorem exit_status_is_0_or_1 (env : Env) (st : State) :
  (exit_code (result (main env st)) = 0%Z \/
   exit_code (result (main env st)) = 1%Z) /\
  (exit_code (result (main env st)) = 0%Z ->
   result (main env st) = Ret tt \/
   (result (main env st) = Raise (SystemExit 0) /\
    check_virtual_env env = false /\
    commands_run (trace (main env st)) = [])).
Proof.
  assert (Hrest : forall st1 code,
            result (main_from env VersionGuard st1) = Raise (SystemExit code) ->
            code = 1%Z).
  { intros st1 code Hr.
    destruct (exits_within_main_from env VersionGuard ltac:(discriminate)
                st1 code Hr) as [<-|[]]. reflexivity. }
  assert (Hcodes : forall st1,
            let r := result (main_from env VersionGuard st1) in
            (exit_code r = 0%Z \/ exit_code r = 1%Z) /\
            (exit_code r = 0%Z -> r = Ret tt)).
  { intros st1. cbn zeta. specialize (Hrest st1).
    destruct (result (main_from env VersionGuard st1)) as [[]|[]]; cbn;
      try (split; [auto|]; intros; (reflexivity || discriminate)).
    rewrite (Hrest code eq_refl). split; [auto|discriminate]. }
  rewrite main_from_start, main_from_env_guard, env_guard_spec.
  destruct (check_virtual_env env).
  - specialize (Hcodes st).
    destruct (main_from env VersionGuard st) as [[r st2] t2].
    cbn [result fst snd] in *. destruct Hcodes as [H01 H0].
    split; [exact H01|]. intros H. left. auto.
  - cbn zeta. destruct (stdin st) as [|response rest].
    + cbn. split; [auto|discriminate].
    + destruct (affirmative response).
      * specialize (Hcodes {| fs := fs st; stdin := rest |}).
        destruct (main_from env VersionGuard _) as [[r st2] t2].
        cbn [result fst snd] in *. destruct Hcodes as [H01 H0].
        split; [exact H01|]. intros H. left. auto.
      * cbn. split; [auto|]. intros _. right. repeat split.
Qed.

(** ** The order of the commands *)

Section CommandOrder.

Context (env : Env).

(** A step function invokes an initial part of its commands, and all of
    them when it returns. *)
Lemma step_call_prefix (s : Step) (st : State) :
  is_call s = true ->
  commands_run (trace (step_call env s st)) `prefix_of` step_commands env s.
Proof.
  destruct s; try discriminate; intros _; cbn [step_call step_commands].
  - rewrite install_python_packages_spec. cbn zeta.
    destruct (subprocess env (pip_upgrade_command env) (fs st))
      as [rc1 out1 err1 files1|f1].
    + assert (Hall : forall o2,
                commands_run
                  ((EvPrint (nl +:+ "=== Installing Python Packages ===")
                    :: run_command_events env (Exited rc1 out1 err1 files1)
                         (pip_upgrade_command env) "Upgrading pip")
                   ++ run_command_events env o2 (pip_requirements_command env)
                        "Installing Python packages")
                = [pip_upgrade_command env; pip_requirements_command env])
        by (intros o2;
            now rewrite commands_run_app, commands_run_print,
              !commands_run_events).
      destruct (subprocess env (pip_requirements_command env) files1)
        as [rc2 out2 err2 files2|f2]; cbn [trace snd]; rewrite Hall;
        reflexivity.
    + cbn [trace snd]. rewrite commands_run_print, commands_run_events.
      now exists [pip_requirements_command env].
  - rewrite check_r_installation_spec. cbn zeta.
    destruct (subprocess env r_version_command (fs st))
      as [rc out err files|f]; cbn [trace snd].
    + rewrite commands_run_app, commands_run_print, commands_run_events.
      destruct (rc =? 0)%Z; reflexivity.
    + rewrite commands_run_print, commands_run_events. reflexivity.
  - rewrite install_r_packages_spec. cbn zeta.
    destruct (subprocess env rscript_command _)
      as [rc out err files|f]; cbn [trace snd].
    + rewrite !commands_run_app, commands_run_print, commands_run_write.
      rewrite commands_run_events. destruct (files !! _); reflexivity.
    + rewrite commands_run_app, commands_run_print, commands_run_write.
      rewrite commands_run_events. reflexivity.
  - rewrite verify_installation_spec. cbn zeta.
    destruct (subprocess env (verify_command env) _)
      as [rc out err files|f]; cbn [trace snd].
    + rewrite !commands_run_app, commands_run_print, commands_run_write.
      rewrite commands_run_events. destruct (files !! _); reflexivity.
    + rewrite commands_run_app, commands_run_print, commands_run_write.
      rewrite commands_run_events. reflexivity.
Qed.

Lemma gated_prefix (s : Step) (rest : M unit)
    (after : list (list string)) (st : State) :
  is_call s = true ->
  (forall st1, commands_run (trace (rest st1)) `prefix_of` after) ->
  commands_run (trace (gated (step_call env s) (abort s) rest st))
    `prefix_of` (step_commands env s ++ after).
Proof.
  intros Hs Hrest. rewrite gated_spec by exact Hs.
  pose proof (step_call_prefix s st Hs) as Hpre.
  destruct (step_call env s st) as [[[[|]|e] st1] t1] eqn:Hcall;
    cbn [trace snd] in *.
  - specialize (Hrest st1). destruct (rest st1) as [[r st2] t2].
    cbn [trace snd] in *. rewrite commands_run_app.
    rewrite (step_call_commands env s _ _ _ _ Hs Hcall).
    now apply prefix_app.
  - rewrite commands_run_app, commands_run_prints, app_nil_r.
    now apply prefix_app_r.
  - now apply prefix_app_r.
Qed.

Lemma main_from_prefix (s : Step) (st : State) :
  s <> EnvGuard ->
  commands_run (trace (main_from env s st)) `prefix_of` commands_from env s.
Proof.
  assert (H5 : forall st1,
            commands_run (trace (main_from env Verify st1))
              `prefix_of` commands_from env Verify).
  { intros st1.
    apply (gated_prefix Verify epilogue [] st1 eq_refl).
    intros st2. rewrite epilogue_spec. cbn [trace snd].
    now rewrite commands_run_prints. }
  assert (H4 : forall st1,
            commands_run (trace (main_from env InstallSecondary st1))
              `prefix_of` commands_from env InstallSecondary)
    by (intros st1; exact (gated_prefix InstallSecondary _ _ st1 eq_refl H5)).
  assert (H3 : forall st1,
            commands_run (trace (main_from env CheckSecondaryRuntime st1))
              `prefix_of` commands_from env CheckSecondaryRuntime)
    by (intros st1;
        exact (gated_prefix CheckSecondaryRuntime _ _ st1 eq_refl H4)).
  assert (H2 : forall st1,
            commands_run (trace (main_from env InstallPrimary st1))
              `prefix_of` commands_from env InstallPrimary)
    by (intros st1; exact (gated_prefix InstallPrimary _ _ st1 eq_refl H3)).
  intros Hs. destruct s; try congruence; auto.
  rewrite main_from_version_guard. specialize (H2 st).
  destruct (main_from env InstallPrimary st) as [[r st2] t2].
  cbn [trace snd] in *. now rewrite commands_run_app, commands_run_prints.
Qed.

End CommandOrder.

(** Whatever happens, the commands of a run are an initial part of the
    fixed sequence pip upgrade, requirements install, [R --version],
    [Rscript], verifier: no command is invoked twice, out of order, or after
    a later one. *)
Theorem commands_in_order (env : Env) (st : State) :
  commands_run (trace (main env st)) `prefix_of`
    [pip_upgrade_command env; pip_requirements_command env;
     r_version_command; rscript_command; verify_command env].
Proof.
  rewrite main_from_start, main_from_env_guard, env_guard_spec.
  assert (Hrest : forall st1,
            commands_run (trace (main_from env VersionGuard st1))
              `prefix_of` commands_from env VersionGuard)
    by (intros st1; apply main_from_prefix; discriminate).
  change (commands_from env VersionGuard)
    with [pip_upgrade_command env; pip_requirements_command env;
          r_version_command; rscript_command; verify_command env] in Hrest.
  destruct (check_virtual_env env).
  - specialize (Hrest st).
    destruct (main_from env VersionGuard st) as [[r st2] t2].
    cbn [trace snd app] in *.
    now rewrite commands_run_app, commands_run_prints.
  - cbn zeta. destruct (stdin st) as [|response rest].
    + cbn [trace snd]. rewrite !commands_run_app, commands_run_prints.
      apply prefix_nil.
    + destruct (affirmative response).
      * specialize (Hrest {| fs := fs st; stdin := rest |}).
        destruct (main_from env VersionGuard _) as [[r st2] t2].
        cbn [trace snd] in *.
        now rewrite !commands_run_app, !commands_run_prints.
      * cbn [trace snd]. rewrite !commands_run_app, !commands_run_prints.
        apply prefix_nil.
Qed.

(** ** A run that returns *)

Section NormalReturn.

Context (env : Env).

Lemma gated_ret_inv (s : Step) (rest : M unit) st st2 t :
  is_call s = true ->
  gated (step_call env s) (abort s) rest st = (Ret tt, st2, t) ->
  exists st1 t1 t2,
    step_call env s st = (Ret true, st1, t1) /\
    rest st1 = (Ret tt, st2, t2) /\ t = t1 ++ t2.
Proof.
  intros Hs. rewrite gated_spec by exact Hs.
  destruct (step_call env s st) as [[[[|]|e] st1] t1]; try discriminate.
  destruct (rest st1) as [[r st3] t2] eqn:Hrest.
  intros [= -> -> <-]. now exists st1, t1, t2.
Qed.

Lemma completed_gated (s s' : Step) (rest : M unit) st st2 t :
  is_call s = true ->
  commands_from env s = step_commands env s ++ commands_from env s' ->
  (forall st1 t2, rest st1 = (Ret tt, st2, t2) -> completed env s' st2 t2) ->
  gated (step_call env s) (abort s) rest st = (Ret tt, st2, t) ->
  completed env s st2 t.
Proof.
  intros Hs Hfrom Hrest Hrun.
  apply (gated_ret_inv s rest _ _ _ Hs) in Hrun
    as (st1 & t1 & t2 & Hcall & Hr & ->).
  destruct (Hrest st1 t2 Hr) as (Hcmds & (t0 & ->) & Hfile).
  repeat split.
  - rewrite commands_run_app, (step_call_commands env s _ _ _ _ Hs Hcall).
    rewrite Hcmds, Hfrom. reflexivity.
  - exists (t1 ++ t0). now rewrite app_assoc.
  - exact Hfile.
Qed.

Lemma completed_verify st st2 t :
  main_from env Verify st = (Ret tt, st2, t) -> completed env Verify st2 t.
Proof.
  cbn [main_from]. intros Hrun.
  apply (gated_ret_inv Verify _ _ _ _ eq_refl) in Hrun
    as (st1 & t1 & t2 & Hcall & Hr & ->).
  rewrite epilogue_spec in Hr. injection Hr as <- <-.
  repeat split.
  - rewrite commands_run_app.
    rewrite (step_call_commands env Verify _ _ _ _ eq_refl Hcall).
    reflexivity.
  - now exists t1.
  - cbn [step_call] in Hcall. rewrite verify_installation_spec in Hcall.
    cbn zeta in Hcall.
    destruct (subprocess env (verify_command env) _)
      as [rc out err files|f]; [|discriminate].
    injection Hcall as _ <- _. apply lookup_delete_eq.
Qed.

Lemma completed_main_from (s : Step) st st2 t :
  s <> EnvGuard ->
  main_from env s st = (Ret tt, st2, t) -> completed env s st2 t.
Proof.
  assert (H5 : forall st1 t2,
            main_from env Verify st1 = (Ret tt, st2, t2) ->
            completed env Verify st2 t2)
    by (intros st1 t2; apply completed_verify).
  assert (H4 : forall st1 t2,
            main_from env InstallSecondary st1 = (Ret tt, st2, t2) ->
            completed env InstallSecondary st2 t2)
    by (intros st1 t2;
        exact (completed_gated InstallSecondary Verify _ _ _ _
                 eq_refl eq_refl H5)).
  assert (H3 : forall st1 t2,
            main_from env CheckSecondaryRuntime st1 = (Ret tt, st2, t2) ->
            completed env CheckSecondaryRuntime st2 t2)
    by (intros st1 t2;
        exact (completed_gated CheckSecondaryRuntime InstallSecondary _ _ _ _
                 eq_refl eq_refl H4)).
  assert (H2 : forall st1 t2,
            main_from env InstallPrimary st1 = (Ret tt, st2, t2) ->
            completed env InstallPrimary st2 t2)
    by (intros st1 t2;
        exact (completed_gated InstallPrimary CheckSecondaryRuntime _ _ _ _
                 eq_refl eq_refl H3)).
  intros Hs. destruct s; try congruence; eauto.
  rewrite main_from_version_guard.
  destruct (main_from env InstallPrimary st) as [[r st3] t3] eqn:Hfrom.
  intros [= -> -> <-]. destruct (H2 _ _ Hfrom) as (Hcmds & (t0 & ->) & Hfile).
  repeat split.
  - now rewrite commands_run_app, commands_run_prints.
  - exists (map EvPrint (version_warning env) ++ t0). now rewrite app_assoc.
  - exact Hfile.
Qed.

End NormalReturn.

(** When [main] returns, every step has run: the five commands were invoked,
    in order, the console ends with the closing lines, and the validation
    script is no longer in the working directory. *)
Theorem normal_return_means_all_steps (env : Env) (st : State) :
  result (main env st) = Ret tt ->
  commands_run (trace (main env st)) =
    [pip_upgrade_command env; pip_requirements_command env;
     r_version_command; rscript_command; verify_command env] /\
  (exists t, trace (main env st) = t ++ map EvPrint epilogue_lines) /\
  fs (final (main env st)) !! "verify_installation.py" = None.
Proof.
  rewrite main_from_start, main_from_env_guard.
  destruct (env_guard env st) as [[[[]|e] st1] t1] eqn:Hguard;
    [|intros [=]].
  assert (Hcmds : commands_run t1 = []).
  { rewrite env_guard_spec in Hguard. destruct (check_virtual_env env).
    - now injection Hguard as _ <-.
    - cbn zeta in Hguard. destruct (stdin st) as [|response rest];
        [discriminate|].
      destruct (affirmative response); [|discriminate].
      injection Hguard as _ <-. reflexivity. }
  destruct (main_from env VersionGuard st1) as [[r st2] t2] eqn:Hfrom.
  cbn [result trace final fst snd]. intros ->.
  destruct (completed_main_from env VersionGuard _ _ _ ltac:(discriminate) Hfrom)
    as (Hall & (t0 & ->) & Hfile).
  repeat split.
  - rewrite commands_run_app, (commands_run_app t1), Hcmds, Hall.
    reflexivity.
  - exists (map EvPrint preamble_lines ++ t1 ++ t0).
    now rewrite <- !app_assoc.
  - exact Hfile.
Qed.

Lemma normal_return_means_all_steps_witness :
  commands_run (trace (main env_all_fine (empty_dir []))) =
    [pip_upgrade_command env_all_fine; pip_requirements_command env_all_fine;
     r_version_command; rscript_command; verify_command env_all_fine] /\
  (exists t, trace (main env_all_fine (empty_dir [])) =
             t ++ map EvPrint epilogue_lines) /\
  fs (final (main env_all_fine (empty_dir []))) !! "verify_installation.py"
    = None.
Proof.
  apply (normal_return_means_all_steps env_all_fine (empty_dir [])).
  vm_compute. reflexivity.
Defined.

(** * Further properties of the generated R script *)

(** The loading loop ends at its last line exactly when every package of
    the vector is installed; otherwise it halts at the first one that is
    not, having loaded and reported the ones before it. *)
Lemma load_packages_outcome (installed packages : list string) :
  match RScript.load_packages installed packages with
  | (RScript.Completed, t) =>
      (forall pkg, In pkg packages -> In pkg installed) /\
      RScript.loads t = packages
  | (RScript.Halted pkg, t) =>
      exists before after,
        packages = before ++ pkg :: after /\
        (forall p, In p before -> In p installed) /\
        ~ In pkg installed /\
        RScript.loads t = before ++ [pkg]
  end.
Proof.
  induction packages as [|pkg rest IH]; cbn [RScript.load_packages].
  - split; [intros pkg []|reflexivity].
  - destruct (RScript.is_installed installed pkg) eqn:Hpkg.
    + apply is_installed_In in Hpkg.
      destruct (RScript.load_packages installed rest) as [[|halted] t].
      * destruct IH as [Hall Hloads]. split.
        -- intros p [<-|Hp]; auto.
        -- cbn. now rewrite Hloads.
      * destruct IH as (before & after & -> & Hbefore & Hno & Hloads).
        exists (pkg :: before), after. repeat split; try assumption.
        -- intros p [<-|Hp]; auto.
        -- cbn. now rewrite Hloads.
    + exists [], rest. repeat split.
      * intros p [].
      * intros Hin. apply is_installed_In in Hin. congruence.
Qed.

(** The state of the library in which the loading loop runs, and the loop
    as the last part of the script. *)
Lemma script_loading (install : list string -> list string -> list string)
    (packages installed : list string) :
  let missing := RScript.missing_packages packages installed in
  let installed' :=
    match missing with
    | [] => installed
    | _ :: _ => install missing installed
    end in
  let run := RScript.script install packages installed in
  run.1.2 = installed' /\
  run.1.1 = (RScript.load_packages installed' packages).1 /\
  RScript.loads run.2 = RScript.loads (RScript.load_packages installed' packages).2 /\
  RScript.installs run.2 =
    match missing with [] => [] | _ :: _ => [missing] end.
Proof.
  cbn zeta. rewrite script_spec. cbn zeta.
  destruct (RScript.missing_packages packages installed) as [|m ms].
  - pose proof (load_packages_installs installed packages) as Hi.
    destruct (RScript.load_packages installed packages) as [status t2].
    repeat split. exact Hi.
  - pose proof (load_packages_installs (install (m :: ms) installed) packages)
      as Hi.
    destruct (RScript.load_packages _ packages) as [status t2].
    repeat split. cbn in *. now rewrite Hi.
Qed.

(** The generated R script ends with status 0 exactly when the four declared
    packages are all installed once the install step is over.  Otherwise it
    halts at the first declared package that is not installed: the packages
    declared before it have been loaded, the ones after it are not
    attempted. *)
Theorem rscript_exit_status
    (install : list string -> list string -> list string)
    (installed : list string) :
  let run := RScript.run install installed in
  (RScript.exit_status run.1.1 = 0%Z <->
   forall pkg, In pkg r_packages -> In pkg run.1.2) /\
  (forall pkg, run.1.1 = RScript.Halted pkg ->
     exists before after,
       r_packages = before ++ pkg :: after /\
       (forall p, In p before -> In p run.1.2) /\
       ~ In pkg run.1.2 /\
       RScript.loads run.2 = before ++ [pkg]).
Proof.
  cbn zeta. unfold RScript.run.
  destruct (script_loading install r_packages installed)
    as (Hlib & Hstatus & Hloads & _).
  cbn zeta in *. rewrite Hstatus, Hloads, Hlib.
  set (installed' :=
         match RScript.missing_packages r_packages installed with
         | [] => installed
         | _ :: _ =>
             install (RScript.missing_packages r_packages installed) installed
         end).
  pose proof (load_packages_outcome installed' r_packages) as Hout.
  destruct (RScript.load_packages installed' r_packages) as [[|halted] t].
  - destruct Hout as [Hall _]. cbn. split; [tauto|discriminate].
  - destruct Hout as (before & after & Heq & Hbefore & Hno & Hl). cbn. split.
    + split; [discriminate|]. intros Hall. destruct Hno. apply Hall.
      pose proof (in_elt halted before after) as Hin.
      rewrite <- Heq in Hin. exact Hin.
    + intros pkg [= <-]. now exists before, after.
Qed.

(** Running the script twice.  If [install.packages] delivers what it is
    asked for and removes nothing, the first run ends with status 0, and a
    second run on the library it leaves installs nothing, leaves the library
    as it is and ends with status 0 as well. *)
Theorem rscript_second_run_installs_nothing
    (install : list string -> list string -> list string)
    (installed : list string) :
  (forall pkgs lib pkg, In pkg pkgs -> In pkg (install pkgs lib)) ->
  (forall pkgs lib pkg, In pkg lib -> In pkg (install pkgs lib)) ->
  let first := RScript.run install installed in
  let second := RScript.run install first.1.2 in
  first.1.1 = RScript.Completed /\
  second.1.1 = RScript.Completed /\
  RScript.installs second.2 = [] /\
  second.1.2 = first.1.2 /\
  RScript.loads second.2 = r_packages.
Proof.
  intros Hdeliver Hkeep. cbn zeta. unfold RScript.run.
  destruct (script_loading install r_packages installed)
    as (Hlib & Hstatus & _ & _).
  cbn zeta in *.
  assert (Hall : forall pkg, In pkg r_packages ->
            In pkg (RScript.script install r_packages installed).1.2).
  { intros pkg Hpkg. rewrite Hlib.
    destruct (RScript.missing_packages r_packages installed) as [|m ms] eqn:Hm.
    - destruct (in_dec string_dec pkg installed) as [Hin|Hout]; [exact Hin|].
      assert (Hmiss : In pkg (RScript.missing_packages r_packages installed))
        by (apply missing_packages_spec; auto).
      rewrite Hm in Hmiss. destruct Hmiss.
    - destruct (in_dec string_dec pkg installed) as [Hin|Hout].
      + now apply Hkeep.
      + apply Hdeliver. rewrite <- Hm. apply missing_packages_spec. auto. }
  set (lib := (RScript.script install r_packages installed).1.2) in *.
  split.
  { rewrite Hstatus, <- Hlib. fold lib.
    now rewrite (load_packages_all lib r_packages Hall). }
  destruct (script_loading install r_packages lib)
    as (Hlib2 & Hstatus2 & Hloads2 & Hinstalls2).
  cbn zeta in *.
  rewrite (missing_packages_none r_packages lib Hall) in *.
  rewrite Hstatus2, Hinstalls2, Hlib2, Hloads2.
  rewrite (load_packages_all lib r_packages Hall). repeat split.
Qed.

Lemma rscript_second_run_installs_nothing_witness :
  let first := RScript.run RScript.online ["MASS"; "stats"] in
  let second := RScript.run RScript.online first.1.2 in
  first.1.1 = RScript.Completed /\
  second.1.1 = RScript.Completed /\
  RScript.installs second.2 = [] /\
  second.1.2 = first.1.2 /\
  RScript.loads second.2 = r_packages.
Proof.
  apply (rscript_second_run_installs_nothing RScript.online ["MASS"; "stats"]).
  - intros pkgs lib pkg Hin. apply in_or_app. now left.
  - intros pkgs lib pkg Hin. apply in_or_app. now right.
Defined.

(** * Further properties of the generated validation script *)

Section ValidationScriptMore.

Import VerifyScript.

Context (w : World).

Lemma check_r_package_spec (pkg : string) (st : State) :
  check_r_package w pkg st =
  match r_eval w ("library(" +:+ pkg +:+ ")") with
  | None =>
      (Ret tt, st,
       [EvEval ("library(" +:+ pkg +:+ ")");
        EvPrint ("✓ R package: " +:+ pkg)])
  | Some e =>
      if is_exception e then
        (Raise (SystemExit 1), st,
         [EvEval ("library(" +:+ pkg +:+ ")");
          EvPrint ("✗ R package " +:+ pkg +:+ ": " +:+ render w e)])
      else (Raise e, st, [EvEval ("library(" +:+ pkg +:+ ")")])
  end.
Proof.
  unfold check_r_package, try_except, ro_r. rewrite bind_run.
  destruct (r_eval w _) as [e|]; [|reflexivity].
  destruct (is_exception e); reflexivity.
Qed.


(** A loop that returns has found every package in order. *)
Lemma python_loop_ret_inv (pkgs : list string) st st' t :
  for_each pkgs (check_python_package w) st = (Ret tt, st', t) ->
  forall pkg, In pkg pkgs -> import_module w pkg = None.
Proof.
  revert t. induction pkgs as [|p rest IH]; intros t Hrun pkg Hin;
    [destruct Hin|].
  cbn [for_each] in Hrun. rewrite bind_run, check_python_package_spec in Hrun.
  destruct (import_module w p) as [[]|] eqn:Hp; try discriminate.
  destruct (for_each rest (check_python_package w) st) as [[r st2] t2] eqn:Hrest.
  injection Hrun as -> -> _.
  destruct Hin as [<-|Hin]; [exact Hp|]. exact (IH _ eq_refl pkg Hin).
Qed.

Lemma r_loop_ret_inv (pkgs : list string) st st' t :
  for_each pkgs (check_r_package w) st = (Ret tt, st', t) ->
  forall pkg, In pkg pkgs -> r_eval w ("library(" +:+ pkg +:+ ")") = None.
Proof.
  revert t. induction pkgs as [|p rest IH]; intros t Hrun pkg Hin;
    [destruct Hin|].
  cbn [for_each] in Hrun. rewrite bind_run, check_r_package_spec in Hrun.
  destruct (r_eval w ("library(" +:+ p +:+ ")")) as [e|] eqn:Hp.
  - destruct (is_exception e); discriminate.
  - destruct (for_each rest (check_r_package w) st) as [[r st2] t2] eqn:Hrest.
    injection Hrun as -> -> _.
    destruct Hin as [<-|Hin]; [exact Hp|]. exact (IH _ eq_refl pkg Hin).
Qed.

End ValidationScriptMore.

Lemma import_ret_inv (w : VerifyScript.World) (name : string) st a st' t :
  VerifyScript.import w name st = (Ret a, st', t) ->
  VerifyScript.import_module w name = None /\ st' = st.
Proof.
  unfold VerifyScript.import.
  destruct (VerifyScript.import_module w name); [discriminate|].
  now intros [= _ <- _].
Qed.

(** When rpy2 cannot be imported, the script reports it under the name rpy2
    and ends with exit status 1: the nine Python packages have been checked,
    and no R package is. *)
Theorem bridge_import_failure (w : VerifyScript.World) (st : State)
    (msg : string) :
  (forall pkg, In pkg VerifyScript.python_packages ->
     VerifyScript.import_module w pkg = None) ->
  VerifyScript.import_module w "rpy2.robjects" = Some (ImportError msg) ->
  VerifyScript.script w st =
  (Raise (SystemExit 1), st,
   VerifyScript.checked VerifyScript.python_packages
   ++ [EvImport "rpy2.robjects";
       EvPrint ("✗ rpy2: " +:+ VerifyScript.render w (ImportError msg))]).
Proof.
  intros Hpy Hbridge. unfold VerifyScript.script.
  rewrite bind_run, python_loop_passes by exact Hpy.
  rewrite bind_run. unfold try_except.
  rewrite bind_run. unfold VerifyScript.import at 1. rewrite Hbridge.
  reflexivity.
Qed.


(** An exception other than [ImportError] raised while a Python package is
    imported is not handled: it leaves the script at that import, no error
    line is printed for the package, and no later package is looked at. *)
Theorem other_import_error_escapes (w : VerifyScript.World) (st : State)
    (before : list string) (pkg : string) (after : list string) (msg : string) :
  VerifyScript.python_packages = before ++ pkg :: after ->
  (forall p, In p before -> VerifyScript.import_module w p = None) ->
  VerifyScript.import_module w pkg = Some (RuntimeError msg) ->
  VerifyScript.script w st =
    (Raise (RuntimeError msg), st,
     VerifyScript.checked before ++ [EvImport pkg]) /\
  exit_code (result (VerifyScript.script w st)) = 1%Z.
Proof.
  intros Hsplit Hbefore Hpkg.
  assert (Hloop : VerifyScript.for_each (before ++ pkg :: after)
                    (VerifyScript.check_python_package w) st =
                  (Raise (RuntimeError msg), st,
                   VerifyScript.checked before ++ [EvImport pkg])).
  { clear Hsplit. induction before as [|p before IH];
      cbn [app VerifyScript.for_each].
    - rewrite bind_run, check_python_package_spec, Hpkg. reflexivity.
    - rewrite bind_run, check_python_package_spec.
      rewrite (Hbefore p) by (left; reflexivity).
      rewrite IH by (intros q Hq; apply Hbefore; right; exact Hq).
      reflexivity. }
  unfold VerifyScript.script. rewrite bind_run, Hsplit, Hloop.
  split; reflexivity.
Qed.

(** The script returns only when everything it checks is there: the nine
    Python packages import, the three imports of the bridge go through, and
    each of the four R packages loads through the bridge. *)
Theorem validation_script_sound (w : VerifyScript.World) (st : State) :
  result (VerifyScript.script w st) = Ret tt ->
  (forall pkg, In pkg VerifyScript.python_packages ->
     VerifyScript.import_module w pkg = None) /\
  (forall name,
     In name ["rpy2.robjects"; "rpy2.robjects.pandas2ri";
              "rpy2.robjects.conversion.localconverter"] ->
     VerifyScript.import_module w name = None) /\
  (forall pkg, In pkg VerifyScript.r_packages ->
     VerifyScript.r_eval w ("library(" +:+ pkg +:+ ")") = None).
Proof.
  destruct (VerifyScript.script w st) as [[r st'] t] eqn:Hrun.
  cbn [result fst]. intros ->. unfold VerifyScript.script in Hrun.
  apply bind_ret_inv in Hrun as ([] & st1 & t1 & t2 & Hloop & Hrest & _).
  apply bind_ret_inv in Hrest as ([] & st2 & t3 & t4 & Htry & _ & _).
  split; [exact (python_loop_ret_inv w _ _ _ _ Hloop)|].
  unfold try_except in Htry.
  match type of Htry with
  | match ?body ?s with _ => _ end = _ =>
      destruct (body s) as [[[[]|e] st3] t5] eqn:Hbody
  end.
  - clear Htry.
    apply bind_ret_inv in Hbody as ([] & s1 & u1 & u2 & H1 & Hbody & _).
    apply bind_ret_inv in Hbody as ([] & s2 & u3 & u4 & H2 & Hbody & _).
    apply bind_ret_inv in Hbody as ([] & s3 & u5 & u6 & H3 & Hbody & _).
    apply bind_ret_inv in Hbody as ([] & s4 & u7 & u8 & H4 & _ & _).
    apply import_ret_inv in H1 as [H1 _].
    apply import_ret_inv in H2 as [H2 _].
    apply import_ret_inv in H3 as [H3 _].
    split.
    + intros name [<-|[<-|[<-|[]]]]; assumption.
    + exact (r_loop_ret_inv w _ _ _ _ H4).
  - destruct e; discriminate.
Qed.

Lemma bridge_import_failure_witness :
  VerifyScript.script world_no_rpy2 (empty_dir []) =
  (Raise (SystemExit 1), empty_dir [],
   VerifyScript.checked VerifyScript.python_packages
   ++ [EvImport "rpy2.robjects"; EvPrint "✗ rpy2: No module named 'rpy2'"]).
Proof.
  apply (bridge_import_failure world_no_rpy2 (empty_dir [])
           "No module named 'rpy2'").
  - intros pkg Hin.
    repeat (destruct Hin as [<-|Hin]; [reflexivity|]). destruct Hin.
  - reflexivity.
Defined.


Lemma other_import_error_escapes_witness :
  VerifyScript.script world_broken_sklearn (empty_dir []) =
    (Raise (RuntimeError "numpy.dtype size changed"), empty_dir [],
     VerifyScript.checked ["pandas"; "polars"] ++ [EvImport "sklearn"]) /\
  exit_code (result (VerifyScript.script world_broken_sklearn (empty_dir [])))
    = 1%Z.
Proof.
  apply (other_import_error_escapes world_broken_sklearn (empty_dir [])
           ["pandas"; "polars"] "sklearn"
           ["statsmodels"; "seaborn"; "matplotlib"; "openpyxl"; "pyarrow";
            "jupyter"] "numpy.dtype size changed").
  - reflexivity.
  - intros p [<-|[<-|[]]]; reflexivity.
  - reflexivity.
Defined.

Lemma validation_script_sound_witness :
  (forall pkg, In pkg VerifyScript.python_packages ->
     VerifyScript.import_module VerifyScript.world_fine pkg = None) /\
  (forall name,
     In name ["rpy2.robjects"; "rpy2.robjects.pandas2ri";
              "rpy2.robjects.conversion.localconverter"] ->
     VerifyScript.import_module VerifyScript.world_fine name = None) /\
  (forall pkg, In pkg VerifyScript.r_packages ->
     VerifyScript.r_eval VerifyScript.world_fine ("library(" +:+ pkg +:+ ")")
     = None).
Proof.
  apply (validation_script_sound VerifyScript.world_fine (empty_dir [])).
  vm_compute. reflexivity.
Defined.

(** * The files the program touches *)

Lemma confined_ret {A} (names : list string) (a : A) : confined names (mret a).
Proof. intros st. constructor. Qed.

Lemma confined_bind {A B} (names : list string) (m : M A) (f : A -> M B) :
  confined names m -> (forall a, confined names (f a)) ->
  confined names (m ≫= f).
Proof.
  intros Hm Hf st. rewrite bind_run. specialize (Hm st).
  destruct (m st) as [[[a|e] st1] t1]; [|exact Hm].
  specialize (Hf a st1). destruct (f a st1) as [[r st2] t2].
  cbn [trace snd] in *. apply Forall_app. split; assumption.
Qed.

Lemma confined_try_except {A} (names : list string) (body : M A)
    (handler : PyExn -> option (M A)) :
  confined names body ->
  (forall e h, handler e = Some h -> confined names h) ->
  confined names (try_except body handler).
Proof.
  intros Hb Hh st. unfold try_except. specialize (Hb st).
  destruct (body st) as [[[a|e] st1] t1]; [exact Hb|].
  destruct (handler e) as [h|] eqn:He; [|exact Hb].
  specialize (Hh e h He st1). destruct (h st1) as [[r st2] t2].
  cbn [trace snd] in *. apply Forall_app. split; assumption.
Qed.

Lemma confined_print (names : list string) (line : string) :
  confined names (print line).
Proof. intros st. repeat constructor. Qed.

Lemma confined_input (names : list string) (prompt : string) :
  confined names (input prompt).
Proof.
  intros st. unfold input. destruct (stdin st); repeat constructor.
Qed.

Lemma confined_sys_exit {A} (names : list string) (code : Z) :
  confined names (@sys_exit A code).
Proof. intros st. constructor. Qed.

Lemma confined_open_write (names : list string) (path content : string) :
  In path names -> confined names (open_write path content).
Proof. intros Hin st. repeat constructor. exact Hin. Qed.

Lemma confined_os_path_exists (names : list string) (path : string) :
  confined names (os_path_exists path).
Proof. intros st. constructor. Qed.

Lemma confined_os_remove (names : list string) (path : string) :
  In path names -> confined names (os_remove path).
Proof.
  intros Hin st. unfold os_remove.
  destruct (fs st !! path); repeat constructor. exact Hin.
Qed.

Lemma confined_when (names : list string) (b : bool) (m : M unit) :
  confined names m -> confined names (when b m).
Proof. intros Hm. destruct b; [exact Hm|apply confined_ret]. Qed.

Lemma confined_subprocess_run (names : list string) (env : Env)
    (command : list string) :
  confined names (subprocess_run env command).
Proof.
  intros st. unfold subprocess_run.
  destruct (subprocess env command (fs st)) as [rc out err files|f];
    [destruct (rc =? 0)%Z|]; repeat constructor.
Qed.

Create HintDb confined.
#[local] Hint Resolve confined_ret confined_print confined_input
  confined_sys_exit confined_os_path_exists confined_when
  confined_subprocess_run : confined.
#[local] Hint Extern 1 (confined _ (open_write _ _)) =>
  apply confined_open_write; cbn; tauto : confined.
#[local] Hint Extern 1 (confined _ (os_remove _)) =>
  apply confined_os_remove; cbn; tauto : confined.

(** Closes [confined names m] for a program built from the operations
    above. *)
Ltac confined_program :=
  repeat first
    [ progress auto with confined
    | apply confined_when
    | apply confined_bind; [|intros ?]
    | apply confined_try_except; [|intros [] ? [= <-]]
    | match goal with
      | |- confined _ (if ?b then _ else _) => destruct b
      end ].

(** The only files the program itself writes or removes are its two
    temporary scripts, in every run and whatever the commands do. *)
Theorem file_effects_confined (env : Env) (st : State) :
  Forall (touches_only ["install_r_packages.R"; "verify_installation.py"])
    (trace (main env st)).
Proof.
  revert st.
  change (confined ["install_r_packages.R"; "verify_installation.py"]
            (main env)).
  unfold main, install_python_packages, check_r_installation,
    install_r_packages, verify_installation, run_command.
  confined_program.
Qed.
